(** * bionic's vDSO function-pointer table (libc/bionic/vdso.cpp)

    The file embeds the 64-bit build of vdso.cpp (the source is compiled only
    for aarch64 and x86_64): the table of two symbol slots, its initializer
    that parses the kernel-provided ELF image found through the auxiliary
    vector, and the two dispatch trampolines.

    Addresses and [uintptr_t]/[size_t] values are integers in [Z], wrapped
    modulo [2^64] wherever the C code adds or subtracts them.  The image is
    read from a byte-addressed memory; the table lives in its own anonymous
    page, disjoint from the image, and is modelled as a list of slots.  The
    one loop of the source without a bound, the walk over the dynamic
    section, runs on fuel. *)

From Stdlib Require Import ZArith Lia List String Ascii Bool.
From stdpp Require Import base list.
Import ListNotations.
Local Open Scope Z_scope.

(** ** Machine words and memory *)

Module Machine.

Definition wrap64 (z : Z) : Z := z mod 2 ^ 64.

(** Byte-addressed memory as the process sees it: every address the code
    dereferences is taken to be readable. *)
Definition memory := Z -> Z.

Definition byte_at (m : memory) (a : Z) : Z := m (wrap64 a) mod 256.

(** Little-endian load of [n] bytes. *)
Fixpoint load_le (m : memory) (a : Z) (n : nat) : Z :=
  match n with
  | O => 0
  | S k => byte_at m a + 256 * load_le m (a + 1) k
  end.

(** A struct member: its byte offset in the struct and its width. *)
Record field := Field { f_offset : Z; f_width : nat }.

(** [p->f] for a struct at address [p]. *)
Definition read (m : memory) (p : Z) (f : field) : Z :=
  load_le m (p + f_offset f) (f_width f).

Definition char_code (c : ascii) : Z := Z.of_N (N_of_ascii c).

(** [strcmp(s, p)] where [s] is a string literal and [p] points into
    memory: the difference of the first pair of differing bytes, 0 when
    both strings end together. *)
Fixpoint strcmp (s : string) (m : memory) (p : Z) : Z :=
  match s with
  | EmptyString => 0 - byte_at m p
  | String c s' =>
      let a := char_code c in
      let b := byte_at m p in
      if a =? b then (if a =? 0 then 0 else strcmp s' m (p + 1)) else a - b
  end.

(** The NUL-terminated string stored at [p] is exactly [s]. *)
Fixpoint cstring_at (m : memory) (p : Z) (s : string) : Prop :=
  match s with
  | EmptyString => byte_at m p = 0
  | String c s' =>
      byte_at m p = char_code c /\ char_code c <> 0 /\ cstring_at m (p + 1) s'
  end.

(** No character of [s] is NUL, so the C string literal is [s] itself. *)
Fixpoint nul_free (s : string) : bool :=
  match s with
  | EmptyString => true
  | String c s' => negb (char_code c =? 0) && nul_free s'
  end.

(** [for (size_t i = 0; i < n; ++i) s = body i s;] *)
Fixpoint for_loop {A : Type} (n : nat) (body : nat -> A -> A) (s : A) : A :=
  match n with
  | O => s
  | S k => body k (for_loop k body s)
  end.

(** A finite image over a background byte: the first cell listed for an
    address gives its content. *)
Fixpoint image (bg : Z) (cells : list (Z * Z)) : memory :=
  fun a =>
    match cells with
    | [] => bg
    | (a', v) :: rest => if a =? a' then v else image bg rest a
    end.

(** The cells of an [n]-byte little-endian integer stored at [a]. *)
Fixpoint cells_le (a : Z) (n : nat) (v : Z) : list (Z * Z) :=
  match n with
  | O => []
  | S k => (a, v mod 256) :: cells_le (a + 1) k (v / 256)
  end.

(** The cells of a NUL-terminated string stored at [a]. *)
Fixpoint cells_str (a : Z) (s : string) : list (Z * Z) :=
  match s with
  | EmptyString => [(a, 0)]
  | String c s' => (a, char_code c) :: cells_str (a + 1) s'
  end.

End Machine.
Import Machine.

(** ** Declarations taken from the system headers

    <link.h>, <elf.h>, <sys/auxv.h> and <sys/mman.h> are not part of the
    source file; the constants and struct layouts that vdso.cpp uses from
    them are the members of this record. *)

Record ElfDecls := {
  AT_SYSINFO_EHDR : Z;
  SHT_DYNSYM : Z;
  PT_LOAD : Z;
  PT_DYNAMIC : Z;
  DT_NULL : Z;
  DT_STRTAB : Z;
  DT_SYMTAB : Z;
  (* ElfW(Ehdr) *)
  e_phoff : field;
  e_shoff : field;
  e_phnum : field;
  e_shnum : field;
  (* ElfW(Shdr) *)
  sizeof_Shdr : Z;
  sh_type : field;
  sh_size : field;
  (* ElfW(Phdr) *)
  sizeof_Phdr : Z;
  p_type : field;
  p_offset : field;
  p_vaddr : field;
  (* ElfW(Dyn) *)
  sizeof_Dyn : Z;
  d_tag : field;
  d_ptr : field;
  (* ElfW(Sym) *)
  sizeof_Sym : Z;
  st_name : field;
  st_value : field;
  (* <sys/mman.h> *)
  MAP_FAILED : Z;
  PROT_READ : Z
}.

(** The ELF-64 values of these declarations on Linux. *)
Definition elf64 : ElfDecls := {|
  AT_SYSINFO_EHDR := 33;
  SHT_DYNSYM := 11;
  PT_LOAD := 1;
  PT_DYNAMIC := 2;
  DT_NULL := 0;
  DT_STRTAB := 5;
  DT_SYMTAB := 6;
  e_phoff := Field 32 8;
  e_shoff := Field 40 8;
  e_phnum := Field 56 2;
  e_shnum := Field 60 2;
  sizeof_Shdr := 64;
  sh_type := Field 4 4;
  sh_size := Field 32 8;
  sizeof_Phdr := 56;
  p_type := Field 0 4;
  p_offset := Field 8 8;
  p_vaddr := Field 16 8;
  sizeof_Dyn := 16;
  d_tag := Field 0 8;
  d_ptr := Field 8 8;
  sizeof_Sym := 24;
  st_name := Field 0 4;
  st_value := Field 8 8;
  MAP_FAILED := 2 ^ 64 - 1;
  PROT_READ := 1
|}.

(** ** The entry table *)

Inductive arch := aarch64 | x86_64.

Definition VDSO_CLOCK_GETTIME_SYMBOL (a : arch) : string :=
  match a with
  | aarch64 => "__kernel_clock_gettime"
  | x86_64 => "__vdso_clock_gettime"
  end.

Definition VDSO_GETTIMEOFDAY_SYMBOL (a : arch) : string :=
  match a with
  | aarch64 => "__kernel_gettimeofday"
  | x86_64 => "__vdso_gettimeofday"
  end.

Record vdso_entry := { name : string; fn : Z }.

Definition VDSO_CLOCK_GETTIME : nat := 0.
Definition VDSO_GETTIMEOFDAY : nat := 1.
Definition VDSO_END : nat := 2.

(** [vdso_entries[j].fn = v] *)
Definition set_fn (v : Z) (e : vdso_entry) : vdso_entry :=
  {| name := name e; fn := v |}.

(** The address held by slot [j]; 0 stands for a slot that does not exist. *)
Definition slot_fn (t : list vdso_entry) (j : nat) : Z :=
  match t !! j with
  | Some e => fn e
  | None => 0
  end.

(** What a system-call wrapper hands back: its return value and the value
    of [errno] after the call. *)
Record sysret := { ret : Z; err : Z }.

(** The process environment the initializer consults. *)
Record os := {
  getauxval : Z -> Z;
  mmap : sysret;
  mprotect : sysret;
  prctl : sysret
}.

(** The table as the rest of the process finds it after start-up. *)
Record process := {
  vdso_entries : Z;
  table : list vdso_entry;
  protection : Z;
  vma_name : option string
}.

Inductive outcome :=
| Fatal (message : string)
| Returned (p : process).

Section Vdso.

Variable D : ElfDecls.
Variable target : arch.

(** Addresses of the system-call wrappers [__clock_gettime] and
    [__gettimeofday], and libc's [strerror]. *)
Variable __clock_gettime : Z.
Variable __gettimeofday : Z.
Variable strerror : Z -> string.

Definition vdso_entries_template : list vdso_entry :=
  [ {| name := VDSO_CLOCK_GETTIME_SYMBOL target; fn := __clock_gettime |};
    {| name := VDSO_GETTIMEOFDAY_SYMBOL target; fn := __gettimeofday |} ].

(** *** Discovery, loop by loop *)

(** Address of [vdso_shdr[i]]. *)
Definition shdr_at (m : memory) (vdso_ehdr_addr : Z) (i : nat) : Z :=
  let vdso_shdr := wrap64 (vdso_ehdr_addr + read m vdso_ehdr_addr (e_shoff D)) in
  wrap64 (vdso_shdr + Z.of_nat i * sizeof_Shdr D).

(** "How many symbols does it have?" *)
Definition symbol_count_of (m : memory) (vdso_ehdr_addr : Z) : Z :=
  for_loop (Z.to_nat (read m vdso_ehdr_addr (e_shnum D)))
    (fun i symbol_count =>
       let sh := shdr_at m vdso_ehdr_addr i in
       if read m sh (sh_type D) =? SHT_DYNSYM D
       then read m sh (sh_size D) / sizeof_Sym D
       else symbol_count)
    0.

(** Address of [vdso_phdr[i]]. *)
Definition phdr_at (m : memory) (vdso_ehdr_addr : Z) (i : nat) : Z :=
  let vdso_phdr := wrap64 (vdso_ehdr_addr + read m vdso_ehdr_addr (e_phoff D)) in
  wrap64 (vdso_phdr + Z.of_nat i * sizeof_Phdr D).

(** "Where's the dynamic table?": one turn of the loop over the program
    headers, on the pair [(vdso_addr, vdso_dyn)]. *)
Definition phdr_step (m : memory) (vdso_ehdr_addr : Z)
    (i : nat) (s : Z * Z) : Z * Z :=
  let ph := phdr_at m vdso_ehdr_addr i in
  if read m ph (p_type D) =? PT_DYNAMIC D
  then (fst s, wrap64 (vdso_ehdr_addr + read m ph (p_offset D)))
  else if read m ph (p_type D) =? PT_LOAD D
  then (wrap64 (vdso_ehdr_addr + read m ph (p_offset D) - read m ph (p_vaddr D)), snd s)
  else s.

Definition dynamic_of (m : memory) (vdso_ehdr_addr : Z) : Z * Z :=
  for_loop (Z.to_nat (read m vdso_ehdr_addr (e_phnum D)))
    (phdr_step m vdso_ehdr_addr)
    (0, 0).

(** "Where are the string and symbol tables?": the walk over the dynamic
    section, one unit of fuel per test of the loop condition; [None] when
    the fuel runs out before a [DT_NULL] tag is met. *)
Fixpoint tables_of (fuel : nat) (m : memory) (vdso_addr d : Z)
    (strtab symtab : Z) : option (Z * Z) :=
  match fuel with
  | O => None
  | S fuel' =>
      if read m d (d_tag D) =? DT_NULL D then Some (strtab, symtab)
      else
        let next := wrap64 (d + sizeof_Dyn D) in
        if read m d (d_tag D) =? DT_STRTAB D
        then tables_of fuel' m vdso_addr next
               (wrap64 (vdso_addr + read m d (d_ptr D))) symtab
        else if read m d (d_tag D) =? DT_SYMTAB D
        then tables_of fuel' m vdso_addr next
               strtab (wrap64 (vdso_addr + read m d (d_ptr D)))
        else tables_of fuel' m vdso_addr next strtab symtab
  end.

(** Address of [symtab[i]]. *)
Definition sym_at (symtab : Z) (i : nat) : Z :=
  wrap64 (symtab + Z.of_nat i * sizeof_Sym D).

(** [strtab + symtab[i].st_name] *)
Definition sym_name_ptr (m : memory) (strtab symtab : Z) (i : nat) : Z :=
  wrap64 (strtab + read m (sym_at symtab i) (st_name D)).

(** [vdso_addr + symtab[i].st_value] *)
Definition sym_target (m : memory) (vdso_addr symtab : Z) (i : nat) : Z :=
  wrap64 (vdso_addr + read m (sym_at symtab i) (st_value D)).

(** The body of the inner loop over the slots. *)
Definition match_slot (m : memory) (vdso_addr strtab symtab : Z)
    (i j : nat) (entries : list vdso_entry) : list vdso_entry :=
  match entries !! j with
  | Some e =>
      if strcmp (name e) m (sym_name_ptr m strtab symtab i) =? 0
      then alter (set_fn (sym_target m vdso_addr symtab i)) j entries
      else entries
  | None => entries
  end.

(** "Are there any symbols we want?" *)
Definition scan_symbols (m : memory) (symbol_count vdso_addr strtab symtab : Z)
    (entries : list vdso_entry) : list vdso_entry :=
  for_loop (Z.to_nat symbol_count)
    (fun i entries => for_loop VDSO_END (match_slot m vdso_addr strtab symtab i) entries)
    entries.

(** *** [__libc_init_vdso_entries] *)

Definition __libc_init_vdso_entries (fuel : nat) (auxv : Z -> Z) (m : memory)
    : option (list vdso_entry) :=
  let entries := vdso_entries_template in
  let vdso_ehdr_addr := auxv (AT_SYSINFO_EHDR D) in
  if vdso_ehdr_addr =? 0 then Some entries else
  let symbol_count := symbol_count_of m vdso_ehdr_addr in
  if symbol_count =? 0 then Some entries else
  let '(vdso_addr, vdso_dyn) := dynamic_of m vdso_ehdr_addr in
  if (vdso_addr =? 0) || (vdso_dyn =? 0) then Some entries else
  match tables_of fuel m vdso_addr vdso_dyn 0 0 with
  | None => None
  | Some (strtab, symtab) =>
      if (strtab =? 0) || (symtab =? 0) then Some entries else
      Some (scan_symbols m symbol_count vdso_addr strtab symtab entries)
  end.

(** *** [__libc_init_vdso] *)

Definition __libc_init_vdso (fuel : nat) (k : os) (m : memory) : option outcome :=
  if ret (mmap k) =? MAP_FAILED D
  then Some (Fatal ("failed to allocate vdso function pointer table: "
                      ++ strerror (err (mmap k))))
  else
    match __libc_init_vdso_entries fuel (getauxval k) m with
    | None => None
    | Some entries =>
        if ret (mprotect k) =? -1
        then Some (Fatal ("failed to mprotect PROT_READ vdso function pointer table: "
                            ++ strerror (err (mprotect k))))
        else Some (Returned {|
               vdso_entries := ret (mmap k);
               table := entries;
               protection := PROT_READ D;
               vma_name := if ret (prctl k) =? 0
                           then Some "vdso function pointer table"%string
                           else None |})
    end.

(** *** The trampolines

    [invoke a x y w] is the indirect call of the two-argument function at
    address [a] in the process state [w]: it gives the [int] result and
    the state after the call, which carries whatever the callee wrote
    through its pointer arguments and into [errno]. *)

Variable world : Type.
Variable invoke : Z -> Z -> Z -> world -> Z * world.

Definition clock_gettime (p : process) (clock_id tp : Z) (w : world)
    : option (Z * world) :=
  match table p !! VDSO_CLOCK_GETTIME with
  | Some e => Some (invoke (fn e) clock_id tp w)
  | None => None
  end.

Definition gettimeofday (p : process) (tv tz : Z) (w : world)
    : option (Z * world) :=
  match table p !! VDSO_GETTIMEOFDAY with
  | Some e => Some (invoke (fn e) tv tz w)
  | None => None
  end.

End Vdso.

(** ** Discovery as a whole

    The four stages of [__libc_init_vdso_entries] before the symbol scan,
    gathered in one result: what the scan will work with, or the fact that
    discovery gave up. *)

Inductive found :=
| Aborted
| Located (symbol_count vdso_addr strtab symtab : Z).

Section Discovery.

Variable D : ElfDecls.

(** Program header [i] takes the [PT_LOAD] branch of the loop, and the
    load bias that branch computes from it. *)
Definition is_load (m : memory) (ehdr : Z) (i : nat) : bool :=
  negb (read m (phdr_at D m ehdr i) (p_type D) =? PT_DYNAMIC D)
  && (read m (phdr_at D m ehdr i) (p_type D) =? PT_LOAD D).

Definition bias_of (m : memory) (ehdr : Z) (i : nat) : Z :=
  wrap64 (ehdr + read m (phdr_at D m ehdr i) (p_offset D)
          - read m (phdr_at D m ehdr i) (p_vaddr D)).

(** Address of the [i]-th entry of the dynamic section starting at [d]. *)
Definition dyn_at (d : Z) (i : nat) : Z :=
  wrap64 (d + Z.of_nat i * sizeof_Dyn D).

Definition discovery (fuel : nat) (auxv : Z -> Z) (m : memory) : option found :=
  let vdso_ehdr_addr := auxv (AT_SYSINFO_EHDR D) in
  if vdso_ehdr_addr =? 0 then Some Aborted else
  let symbol_count := symbol_count_of D m vdso_ehdr_addr in
  if symbol_count =? 0 then Some Aborted else
  let s := dynamic_of D m vdso_ehdr_addr in
  if (fst s =? 0) || (snd s =? 0) then Some Aborted else
  match tables_of D fuel m (fst s) (snd s) 0 0 with
  | None => None
  | Some (strtab, symtab) =>
      if (strtab =? 0) || (symtab =? 0) then Some Aborted
      else Some (Located symbol_count (fst s) strtab symtab)
  end.

(** Discovery gets as far as the walk over the dynamic section. *)
Definition reaches_walk (auxv : Z -> Z) (m : memory) : bool :=
  let vdso_ehdr_addr := auxv (AT_SYSINFO_EHDR D) in
  negb (vdso_ehdr_addr =? 0)
  && negb (symbol_count_of D m vdso_ehdr_addr =? 0)
  && negb (fst (dynamic_of D m vdso_ehdr_addr) =? 0)
  && negb (snd (dynamic_of D m vdso_ehdr_addr) =? 0).

(** The dynamic section at [d] has a [DT_NULL] tag among its first [fuel]
    entries. *)
Definition walk_ends (fuel : nat) (m : memory) (d : Z) : Prop :=
  exists n : nat, (n < fuel)%nat /\ read m (dyn_at d n) (d_tag D) = DT_NULL D.

(** The ways in which the object can fail to offer a symbol table. *)
Inductive abort_cause (fuel : nat) (auxv : Z -> Z) (m : memory) : Prop :=
| vdso_absent :
    auxv (AT_SYSINFO_EHDR D) = 0 ->
    abort_cause fuel auxv m
| dynsym_absent :
    (forall i : nat,
        (i < Z.to_nat (read m (auxv (AT_SYSINFO_EHDR D)) (e_shnum D)))%nat ->
        read m (shdr_at D m (auxv (AT_SYSINFO_EHDR D)) i) (sh_type D) <> SHT_DYNSYM D) ->
    abort_cause fuel auxv m
| symbol_count_zero :
    symbol_count_of D m (auxv (AT_SYSINFO_EHDR D)) = 0 ->
    abort_cause fuel auxv m
| dynamic_absent :
    (forall i : nat,
        (i < Z.to_nat (read m (auxv (AT_SYSINFO_EHDR D)) (e_phnum D)))%nat ->
        read m (phdr_at D m (auxv (AT_SYSINFO_EHDR D)) i) (p_type D) <> PT_DYNAMIC D) ->
    abort_cause fuel auxv m
| load_absent :
    (forall i : nat,
        (i < Z.to_nat (read m (auxv (AT_SYSINFO_EHDR D)) (e_phnum D)))%nat ->
        read m (phdr_at D m (auxv (AT_SYSINFO_EHDR D)) i) (p_type D) <> PT_LOAD D) ->
    abort_cause fuel auxv m
| strtab_absent (n : nat) :
    (n < fuel)%nat ->
    read m (dyn_at (snd (dynamic_of D m (auxv (AT_SYSINFO_EHDR D)))) n) (d_tag D)
      = DT_NULL D ->
    (forall i : nat, (i < n)%nat ->
        read m (dyn_at (snd (dynamic_of D m (auxv (AT_SYSINFO_EHDR D)))) i) (d_tag D)
          <> DT_STRTAB D) ->
    abort_cause fuel auxv m
| symtab_absent (n : nat) :
    (n < fuel)%nat ->
    read m (dyn_at (snd (dynamic_of D m (auxv (AT_SYSINFO_EHDR D)))) n) (d_tag D)
      = DT_NULL D ->
    (forall i : nat, (i < n)%nat ->
        read m (dyn_at (snd (dynamic_of D m (auxv (AT_SYSINFO_EHDR D)))) i) (d_tag D)
          <> DT_SYMTAB D) ->
    abort_cause fuel auxv m.

(** The scan as it acts on one slot: the turn for symbol [i], and the
    turns for the first [n] symbols. *)
Definition resolve_entry (m : memory) (vdso_addr strtab symtab : Z)
    (i : nat) (e : vdso_entry) : vdso_entry :=
  if strcmp (name e) m (sym_name_ptr D m strtab symtab i) =? 0
  then set_fn (sym_target D m vdso_addr symtab i) e
  else e.

Definition resolve_slot (m : memory) (vdso_addr strtab symtab : Z)
    (n : nat) (e : vdso_entry) : vdso_entry :=
  for_loop n (resolve_entry m vdso_addr strtab symtab) e.

End Discovery.

(** ** The walk over the dynamic section, entry by entry

    What the turn of the walk at entry [i] of the section at [d] does to
    each of the two table pointers. *)

Section Walk.

Variable D : ElfDecls.

Definition strtab_turn (m : memory) (vdso_addr d : Z) (i : nat) (strtab : Z) : Z :=
  if read m (dyn_at D d i) (d_tag D) =? DT_STRTAB D
  then wrap64 (vdso_addr + read m (dyn_at D d i) (d_ptr D))
  else strtab.

Definition symtab_turn (m : memory) (vdso_addr d : Z) (i : nat) (symtab : Z) : Z :=
  if negb (read m (dyn_at D d i) (d_tag D) =? DT_STRTAB D)
     && (read m (dyn_at D d i) (d_tag D) =? DT_SYMTAB D)
  then wrap64 (vdso_addr + read m (dyn_at D d i) (d_ptr D))
  else symtab.

End Walk.

(** ** Synthetic objects

    Small ELF-64 images laid out by hand, for running the initializer. *)

Module Synthetic.

Definition put (a : Z) (f : field) (v : Z) : list (Z * Z) :=
  cells_le (a + f_offset f) (f_width f) v.

(** Consecutive [size]-byte records from address [a] on. *)
Fixpoint records {X : Type} (a size : Z) (cells : Z -> X -> list (Z * Z))
    (xs : list X) : list (Z * Z) :=
  match xs with
  | [] => []
  | x :: rest => cells a x ++ records (a + size) size cells rest
  end.

Definition ehdr_cells (b phoff phnum shoff shnum : Z) : list (Z * Z) :=
  put b (e_phoff elf64) phoff ++ put b (e_phnum elf64) phnum
    ++ put b (e_shoff elf64) shoff ++ put b (e_shnum elf64) shnum.

Definition phdr_cells (a : Z) (x : Z * Z * Z) : list (Z * Z) :=
  let '(type, offset, vaddr) := x in
  put a (p_type elf64) type ++ put a (p_offset elf64) offset
    ++ put a (p_vaddr elf64) vaddr.

Definition shdr_cells (a : Z) (x : Z * Z) : list (Z * Z) :=
  put a (sh_type elf64) (fst x) ++ put a (sh_size elf64) (snd x).

Definition dyn_cells (a : Z) (x : Z * Z) : list (Z * Z) :=
  put a (d_tag elf64) (fst x) ++ put a (d_ptr elf64) (snd x).

Definition sym_cells (a : Z) (x : Z * Z) : list (Z * Z) :=
  put a (st_name elf64) (fst x) ++ put a (st_value elf64) (snd x).

(** An object at [b]: program headers at [b + 0x40], section headers at
    [b + 0x400], the dynamic section at [b + 0x100], and the symbol and
    string tables at [tables + 0x200] and [tables + 0x300]. *)
Definition object_cells (b tables : Z) (phdrs : list (Z * Z * Z))
    (shdrs dyns syms : list (Z * Z)) (strs : list (Z * string)) : list (Z * Z) :=
  ehdr_cells b 0x40 (Z.of_nat (length phdrs)) 0x400 (Z.of_nat (length shdrs))
    ++ records (b + 0x40) (sizeof_Phdr elf64) phdr_cells phdrs
    ++ records (b + 0x400) (sizeof_Shdr elf64) shdr_cells shdrs
    ++ records (b + 0x100) (sizeof_Dyn elf64) dyn_cells dyns
    ++ records (tables + 0x200) (sizeof_Sym elf64) sym_cells syms
    ++ concat (map (fun x => cells_str (tables + 0x300 + fst x) (snd x)) strs).

Definition object (bg b tables : Z) (phdrs : list (Z * Z * Z))
    (shdrs dyns syms : list (Z * Z)) (strs : list (Z * string)) : memory :=
  image bg (object_cells b tables phdrs shdrs dyns syms strs).

Definition base : Z := 0x7ffff7fc1000.

(** The auxiliary vector that reports the object at [base]. *)
Definition auxv (type : Z) : Z :=
  if type =? AT_SYSINFO_EHDR elf64 then base else 0.

(** The auxiliary vector without an [AT_SYSINFO_EHDR] entry. *)
Definition no_auxv (type : Z) : Z := 0.

(** Stand-ins for the addresses of the two system-call wrappers. *)
Definition sys_clock_gettime : Z := 0x55550000.
Definition sys_gettimeofday : Z := 0x55550040.

Definition strings : list (Z * string) :=
  [ (0, ""%string);
    (1, "__kernel_clock_gettime"%string);
    (24, "__kernel_gettimeofday"%string);
    (46, "__kernel_rt_sigreturn"%string) ].

Definition dynamic : list (Z * Z) :=
  [ (DT_STRTAB elf64, 0x300); (DT_SYMTAB elf64, 0x200); (DT_NULL elf64, 0) ].

(** One loadable segment mapping virtual address 0 to file offset 0; the
    only wanted symbol is the clock one, at value [0x1000]. *)
Definition clock_only : memory :=
  object 0 base base
    [ (PT_LOAD elf64, 0, 0); (PT_DYNAMIC elf64, 0x100, 0x100) ]
    [ (SHT_DYNSYM elf64, 3 * 24) ]
    dynamic
    [ (0, 0); (46, 0x800); (1, 0x1000) ]
    strings.

(** The clock symbol twice, at [0x1000] and then at [0x2000]. *)
Definition clock_twice : memory :=
  object 0 base base
    [ (PT_LOAD elf64, 0, 0); (PT_DYNAMIC elf64, 0x100, 0x100) ]
    [ (SHT_DYNSYM elf64, 3 * 24) ]
    dynamic
    [ (0, 0); (1, 0x1000); (1, 0x2000) ]
    strings.

(** Two loadable segments: the first maps virtual address 0 to offset 0,
    the second virtual address [0x1000] to offset [0x3000]. *)
Definition two_loads : memory :=
  object 0 base (base + 0x2000)
    [ (PT_LOAD elf64, 0, 0); (PT_DYNAMIC elf64, 0x100, 0x100);
      (PT_LOAD elf64, 0x3000, 0x1000) ]
    [ (SHT_DYNSYM elf64, 2 * 24) ]
    dynamic
    [ (0, 0); (1, 0x1000) ]
    strings.

(** Two [SHT_DYNSYM] sections, of five symbols and then of two. *)
Definition two_dynsyms : memory :=
  object 0 base base
    [ (PT_LOAD elf64, 0, 0); (PT_DYNAMIC elf64, 0x100, 0x100) ]
    [ (SHT_DYNSYM elf64, 5 * 24); (3, 64); (SHT_DYNSYM elf64, 2 * 24) ]
    dynamic
    [ (0, 0); (24, 0x1100); (1, 0x1000) ]
    strings.

(** The clock symbol's value is the two's complement of the load bias. *)
Definition wrapping_symbol : memory :=
  object 0 base base
    [ (PT_LOAD elf64, 0, 0); (PT_DYNAMIC elf64, 0x100, 0x100) ]
    [ (SHT_DYNSYM elf64, 2 * 24) ]
    dynamic
    [ (0, 0); (1, 2 ^ 64 - base) ]
    strings.

(** A kernel on which every call of the initializer succeeds. *)
Definition kind_os : os := {|
  getauxval := auxv;
  mmap := {| ret := 0x7ffff7ff0000; err := 0 |};
  mprotect := {| ret := 0; err := 0 |};
  prctl := {| ret := 0; err := 0 |}
|}.

Definition strerror (e : Z) : string :=
  if e =? 12 then "Out of memory"%string else "Unknown error"%string.

(** The process that start-up leaves on [kind_os] with [clock_only]. *)
Definition clock_only_table : list vdso_entry :=
  [ {| name := "__kernel_clock_gettime"; fn := base + 0x1000 |};
    {| name := "__kernel_gettimeofday"; fn := sys_gettimeofday |} ].

Definition clock_only_process : process := {|
  vdso_entries := 0x7ffff7ff0000;
  table := clock_only_table;
  protection := PROT_READ elf64;
  vma_name := Some "vdso function pointer table"%string
|}.

(** A process state for trying the trampolines: the value of [errno] and
    the calls made so far, each with its target and its two arguments.
    The clock wrapper succeeds; everything else fails with [EFAULT]. *)
Record toy_world := { errno : Z; calls : list (Z * Z * Z) }.

Definition toy_invoke (a x y : Z) (w : toy_world) : Z * toy_world :=
  if a =? sys_clock_gettime
  then (0, {| errno := errno w; calls := (a, x, y) :: calls w |})
  else (-1, {| errno := 14; calls := (a, x, y) :: calls w |}).

Definition toy_start : toy_world := {| errno := 0; calls := [] |}.

(** Two dynamic-section descriptors; nothing is stored at the place the
    first one names. *)
Definition two_dynamics : memory :=
  object 0 base base
    [ (PT_DYNAMIC elf64, 0x500, 0x500); (PT_LOAD elf64, 0, 0);
      (PT_DYNAMIC elf64, 0x100, 0x100) ]
    [ (SHT_DYNSYM elf64, 3 * 24) ]
    dynamic
    [ (0, 0); (46, 0x800); (1, 0x1000) ]
    strings.

(** A loadable segment whose declared virtual address is the object's base
    address itself. *)
Definition zero_bias : memory :=
  object 0 base base
    [ (PT_LOAD elf64, 0, base); (PT_DYNAMIC elf64, 0x100, 0x100) ]
    [ (SHT_DYNSYM elf64, 3 * 24) ]
    dynamic
    [ (0, 0); (46, 0x800); (1, 0x1000) ]
    strings.

(** A dynamic section with two string-table entries, and a symbol-table
    entry behind its null entry. *)
Definition two_strtabs : memory :=
  object 0 base base
    [ (PT_LOAD elf64, 0, 0); (PT_DYNAMIC elf64, 0x100, 0x100) ]
    [ (SHT_DYNSYM elf64, 3 * 24) ]
    [ (DT_STRTAB elf64, 0x9990); (DT_SYMTAB elf64, 0x200);
      (DT_STRTAB elf64, 0x300); (DT_NULL elf64, 0); (DT_SYMTAB elf64, 0x7770) ]
    [ (0, 0); (46, 0x800); (1, 0x1000) ]
    strings.

(** The string-table entry translates to address 0. *)
Definition null_strtab : memory :=
  object 0 base base
    [ (PT_LOAD elf64, 0, 0); (PT_DYNAMIC elf64, 0x100, 0x100) ]
    [ (SHT_DYNSYM elf64, 3 * 24) ]
    [ (DT_STRTAB elf64, 2 ^ 64 - base); (DT_SYMTAB elf64, 0x200); (DT_NULL elf64, 0) ]
    [ (0, 0); (46, 0x800); (1, 0x1000) ]
    strings.

(** A dynamic-symbol section one byte short of a symbol. *)
Definition short_dynsym : memory :=
  object 0 base base
    [ (PT_LOAD elf64, 0, 0); (PT_DYNAMIC elf64, 0x100, 0x100) ]
    [ (SHT_DYNSYM elf64, 23) ]
    dynamic
    [ (1, 0x1000) ]
    strings.

(** No section headers at all. *)
Definition no_sections : memory :=
  object 0 base base
    [ (PT_LOAD elf64, 0, 0); (PT_DYNAMIC elf64, 0x100, 0x100) ]
    []
    dynamic
    [ (0, 0); (1, 0x1000) ]
    strings.

(** Both wanted symbols. *)
Definition both_symbols : memory :=
  object 0 base base
    [ (PT_LOAD elf64, 0, 0); (PT_DYNAMIC elf64, 0x100, 0x100) ]
    [ (SHT_DYNSYM elf64, 3 * 24) ]
    dynamic
    [ (0, 0); (1, 0x1000); (24, 0x1100) ]
    strings.

(** Symbols whose names only come close to a wanted one: one longer by two
    characters, one shorter by one. *)
Definition near_misses : memory :=
  object 0 base base
    [ (PT_LOAD elf64, 0, 0); (PT_DYNAMIC elf64, 0x100, 0x100) ]
    [ (SHT_DYNSYM elf64, 4 * 24) ]
    dynamic
    [ (0, 0); (1, 0x800); (23, 0x1000); (48, 0x1100) ]
    [ (0, ""%string);
      (1, "__kernel_rt_sigreturn"%string);
      (23, "__kernel_clock_gettime64"%string);
      (48, "__kernel_clock_gettim"%string) ].

(** A kernel that reports no object in the auxiliary vector, and one
    that refuses to name the region. *)
Definition absent_os : os := {|
  getauxval := no_auxv;
  mmap := {| ret := 0x7ffff7ff0000; err := 0 |};
  mprotect := {| ret := 0; err := 0 |};
  prctl := {| ret := 0; err := 0 |}
|}.

Definition no_prctl_os : os := {|
  getauxval := auxv;
  mmap := {| ret := 0x7ffff7ff0000; err := 0 |};
  mprotect := {| ret := 0; err := 0 |};
  prctl := {| ret := -1; err := 22 |}
|}.

Definition fallback_process : process := {|
  vdso_entries := 0x7ffff7ff0000;
  table := vdso_entries_template aarch64 sys_clock_gettime sys_gettimeofday;
  protection := PROT_READ elf64;
  vma_name := Some "vdso function pointer table"%string
|}.

End Synthetic.

(** * Properties *)

(** ** Words, loads and loops *)

Lemma wrap64_add_l (a b : Z) : wrap64 (wrap64 a + b) = wrap64 (a + b).
Proof. unfold wrap64. apply Zplus_mod_idemp_l. Qed.

Lemma wrap64_small (a : Z) : 0 <= a < 2 ^ 64 -> wrap64 a = a.
Proof. intros H. unfold wrap64. apply Z.mod_small. exact H. Qed.

Lemma byte_at_wrap (m : memory) (a b : Z) :
  wrap64 a = wrap64 b -> byte_at m a = byte_at m b.
Proof. unfold byte_at. intros ->. reflexivity. Qed.

Lemma load_le_wrap (m : memory) (n : nat) :
  forall a b, wrap64 a = wrap64 b -> load_le m a n = load_le m b n.
Proof.
  induction n as [|n IH]; intros a b Hab; simpl.
  - reflexivity.
  - rewrite (byte_at_wrap m a b Hab). rewrite (IH (a + 1) (b + 1)).
    + reflexivity.
    + rewrite <- (wrap64_add_l a 1), <- (wrap64_add_l b 1), Hab. reflexivity.
Qed.

Lemma read_wrap (m : memory) (p : Z) (f : field) :
  read m (wrap64 p) f = read m p f.
Proof. unfold read. apply load_le_wrap. apply wrap64_add_l. Qed.

Lemma byte_at_range (m : memory) (a : Z) : 0 <= byte_at m a < 256.
Proof. unfold byte_at. apply Z.mod_pos_bound. lia. Qed.

Lemma load_le_nonneg (m : memory) (n : nat) : forall a, 0 <= load_le m a n.
Proof.
  induction n as [|n IH]; intros a; simpl.
  - lia.
  - pose proof (byte_at_range m a). pose proof (IH (a + 1)). lia.
Qed.

(** A loop whose body either overwrites the state with a value that depends
    on the index alone or leaves it: the last overwriting turn decides. *)
Lemma for_loop_last_write {A : Type} (c : nat -> bool) (v : nat -> A)
    (n k : nat) (s : A) :
  (k < n)%nat -> c k = true ->
  (forall i : nat, (k < i < n)%nat -> c i = false) ->
  for_loop n (fun i s => if c i then v i else s) s = v k.
Proof.
  induction n as [|n IH]; intros Hk Hc Hlater; [lia|].
  simpl. destruct (Nat.eq_dec k n) as [->|Hne].
  - rewrite Hc. reflexivity.
  - rewrite (Hlater n) by lia. apply IH; [lia|exact Hc|].
    intros i Hi. apply Hlater. lia.
Qed.

Lemma for_loop_no_write {A : Type} (c : nat -> bool) (v : nat -> A)
    (n : nat) (s : A) :
  (forall i : nat, (i < n)%nat -> c i = false) ->
  for_loop n (fun i s => if c i then v i else s) s = s.
Proof.
  induction n as [|n IH]; intros Hc; simpl; [reflexivity|].
  rewrite (Hc n) by lia. apply IH. intros i Hi. apply Hc. lia.
Qed.

Lemma for_loop_some_write {A : Type} (c : nat -> bool) (v : nat -> A)
    (n : nat) (s : A) :
  (exists i : nat, (i < n)%nat /\ c i = true) ->
  exists k : nat,
    (k < n)%nat /\ c k = true
    /\ (forall i : nat, (k < i < n)%nat -> c i = false)
    /\ for_loop n (fun i s => if c i then v i else s) s = v k.
Proof.
  induction n as [|n IH]; intros (i & Hi & Hc); [lia|].
  destruct (c n) eqn:Hn.
  - exists n. split; [lia|]. split; [exact Hn|]. split; [intros; lia|].
    simpl. rewrite Hn. reflexivity.
  - destruct IH as (k & Hk & Hck & Hlater & Heq).
    { exists i. split; [|exact Hc].
      destruct (Nat.eq_dec i n) as [->|]; [congruence|lia]. }
    exists k. split; [lia|]. split; [exact Hck|]. split.
    + intros j Hj. destruct (Nat.eq_dec j n) as [->|]; [exact Hn|].
      apply Hlater. lia.
    + simpl. rewrite Hn. exact Heq.
Qed.

Lemma for_loop_write_cases {A : Type} (c : nat -> bool) (v : nat -> A)
    (n : nat) (s : A) :
  for_loop n (fun i s => if c i then v i else s) s = s
  \/ exists k : nat,
       (k < n)%nat /\ c k = true
       /\ for_loop n (fun i s => if c i then v i else s) s = v k.
Proof.
  induction n as [|n IH]; simpl; [left; reflexivity|].
  destruct (c n) eqn:Hn.
  - right. exists n. split; [lia|]. split; [exact Hn|reflexivity].
  - destruct IH as [IH|(k & Hk & Hc & IH)]; [left; exact IH|].
    right. exists k. split; [lia|]. split; assumption.
Qed.

Lemma for_loop_S {A : Type} (f : nat -> A -> A) (n : nat) (s : A) :
  for_loop (S n) f s = f n (for_loop n f s).
Proof. reflexivity. Qed.

Lemma for_loop_ext {A : Type} (f g : nat -> A -> A) (n : nat) (s : A) :
  (forall i x, (i < n)%nat -> f i x = g i x) ->
  for_loop n f s = for_loop n g s.
Proof.
  induction n as [|n IH]; intros H; simpl; [reflexivity|].
  rewrite IH by (intros; apply H; lia). apply H. lia.
Qed.

(** ** [strcmp] against a string in memory *)

Lemma cstring_at_strcmp (m : memory) (s : string) :
  forall p, cstring_at m p s -> strcmp s m p = 0.
Proof.
  induction s as [|c s IH]; intros p H; simpl in *.
  - rewrite H. reflexivity.
  - destruct H as (Hb & Hc & Hrest). rewrite Hb, Z.eqb_refl.
    destruct (Z.eqb_spec (char_code c) 0) as [E|_]; [contradiction|].
    apply IH. exact Hrest.
Qed.

Lemma strcmp_cstring_at (m : memory) (s : string) :
  nul_free s = true ->
  forall p, strcmp s m p = 0 -> cstring_at m p s.
Proof.
  induction s as [|c s IH]; intros Hs p H; simpl in *.
  - pose proof (byte_at_range m p). lia.
  - apply andb_true_iff in Hs as [Hc Hs].
    apply negb_true_iff in Hc. rewrite Hc in H.
    destruct (Z.eqb_spec (char_code c) (byte_at m p)) as [E|E].
    + split; [symmetry; exact E|]. split.
      * apply Z.eqb_neq. exact Hc.
      * apply IH; assumption.
    + lia.
Qed.

Lemma symbol_names_nul_free (a : arch) :
  nul_free (VDSO_CLOCK_GETTIME_SYMBOL a) = true
  /\ nul_free (VDSO_GETTIMEOFDAY_SYMBOL a) = true.
Proof. destruct a; split; reflexivity. Qed.

(** ** The loops of discovery *)

Section DiscoveryFacts.

Variable D : ElfDecls.

(** *** Section headers *)

Lemma symbol_count_of_none (m : memory) (ehdr : Z) :
  (forall i : nat, (i < Z.to_nat (read m ehdr (e_shnum D)))%nat ->
      read m (shdr_at D m ehdr i) (sh_type D) <> SHT_DYNSYM D) ->
  symbol_count_of D m ehdr = 0.
Proof.
  intros H. unfold symbol_count_of.
  apply (for_loop_no_write
           (fun i => read m (shdr_at D m ehdr i) (sh_type D) =? SHT_DYNSYM D)
           (fun i => read m (shdr_at D m ehdr i) (sh_size D) / sizeof_Sym D)).
  intros i Hi. apply Z.eqb_neq. apply H. exact Hi.
Qed.

(** *** Program headers *)

Lemma fst_phdr_loop (m : memory) (ehdr : Z) (n : nat) (s : Z * Z) :
  fst (for_loop n (phdr_step D m ehdr) s)
  = for_loop n (fun i a => if is_load D m ehdr i then bias_of D m ehdr i else a) (fst s).
Proof.
  induction n as [|n IH]; simpl; [reflexivity|].
  rewrite <- IH. unfold phdr_step, is_load, bias_of.
  destruct (read m (phdr_at D m ehdr n) (p_type D) =? PT_DYNAMIC D); simpl;
    [reflexivity|].
  destruct (read m (phdr_at D m ehdr n) (p_type D) =? PT_LOAD D); reflexivity.
Qed.

Lemma snd_phdr_loop (m : memory) (ehdr : Z) (n : nat) (s : Z * Z) :
  snd (for_loop n (phdr_step D m ehdr) s)
  = for_loop n
      (fun i d => if read m (phdr_at D m ehdr i) (p_type D) =? PT_DYNAMIC D
                  then wrap64 (ehdr + read m (phdr_at D m ehdr i) (p_offset D))
                  else d)
      (snd s).
Proof.
  induction n as [|n IH]; simpl; [reflexivity|].
  rewrite <- IH. unfold phdr_step.
  destruct (read m (phdr_at D m ehdr n) (p_type D) =? PT_DYNAMIC D); simpl;
    [reflexivity|].
  destruct (read m (phdr_at D m ehdr n) (p_type D) =? PT_LOAD D); reflexivity.
Qed.

Lemma dynamic_of_no_load (m : memory) (ehdr : Z) :
  (forall i : nat, (i < Z.to_nat (read m ehdr (e_phnum D)))%nat ->
      read m (phdr_at D m ehdr i) (p_type D) <> PT_LOAD D) ->
  fst (dynamic_of D m ehdr) = 0.
Proof.
  intros H. unfold dynamic_of. rewrite fst_phdr_loop. simpl.
  apply for_loop_no_write. intros i Hi. unfold is_load.
  apply andb_false_iff. right. apply Z.eqb_neq. apply H. exact Hi.
Qed.

Lemma dynamic_of_no_dynamic (m : memory) (ehdr : Z) :
  (forall i : nat, (i < Z.to_nat (read m ehdr (e_phnum D)))%nat ->
      read m (phdr_at D m ehdr i) (p_type D) <> PT_DYNAMIC D) ->
  snd (dynamic_of D m ehdr) = 0.
Proof.
  intros H. unfold dynamic_of. rewrite snd_phdr_loop. simpl.
  apply (for_loop_no_write
           (fun i => read m (phdr_at D m ehdr i) (p_type D) =? PT_DYNAMIC D)
           (fun i => wrap64 (ehdr + read m (phdr_at D m ehdr i) (p_offset D)))).
  intros i Hi. apply Z.eqb_neq. apply H. exact Hi.
Qed.

(** *** The dynamic section *)

Lemma dyn_at_0 (m : memory) (d : Z) (f : field) :
  read m (dyn_at D d 0) f = read m d f.
Proof.
  unfold dyn_at. replace (d + Z.of_nat 0 * sizeof_Dyn D) with d by lia.
  apply read_wrap.
Qed.

Lemma dyn_at_S (d : Z) (i : nat) :
  dyn_at D (wrap64 (d + sizeof_Dyn D)) i = dyn_at D d (S i).
Proof.
  unfold dyn_at. rewrite wrap64_add_l. f_equal. lia.
Qed.

(** The walk returns once a [DT_NULL] tag lies within the fuel; a table
    pointer for which no tag was met keeps its initial value. *)
Lemma tables_of_ends (m : memory) (vdso_addr : Z) (fuel : nat) :
  forall (n : nat) (d strtab symtab : Z),
    (n < fuel)%nat ->
    read m (dyn_at D d n) (d_tag D) = DT_NULL D ->
    exists strtab' symtab',
      tables_of D fuel m vdso_addr d strtab symtab = Some (strtab', symtab')
      /\ ((forall i : nat, (i < n)%nat ->
              read m (dyn_at D d i) (d_tag D) <> DT_STRTAB D) ->
          strtab' = strtab)
      /\ ((forall i : nat, (i < n)%nat ->
              read m (dyn_at D d i) (d_tag D) <> DT_SYMTAB D) ->
          symtab' = symtab).
Proof.
  induction fuel as [|fuel IH]; intros n d strtab symtab Hn Hnull; [lia|].
  simpl. destruct (Z.eqb_spec (read m d (d_tag D)) (DT_NULL D)) as [E|E].
  - exists strtab, symtab. auto.
  - destruct n as [|n]; [rewrite dyn_at_0 in Hnull; contradiction|].
    assert (Hn' : (n < fuel)%nat) by lia.
    rewrite <- dyn_at_S in Hnull.
    assert (Hshift : forall (t : Z),
               (forall i : nat, (i < S n)%nat ->
                   read m (dyn_at D d i) (d_tag D) <> t) ->
               read m d (d_tag D) <> t
               /\ forall i : nat, (i < n)%nat ->
                   read m (dyn_at D (wrap64 (d + sizeof_Dyn D)) i) (d_tag D) <> t).
    { intros t H. split.
      - rewrite <- (dyn_at_0 m d). apply H. lia.
      - intros i Hi. rewrite dyn_at_S. apply H. lia. }
    destruct (Z.eqb_spec (read m d (d_tag D)) (DT_STRTAB D)) as [Es|Es];
      [|destruct (Z.eqb_spec (read m d (d_tag D)) (DT_SYMTAB D)) as [Ey|Ey]].
    + destruct (IH n (wrap64 (d + sizeof_Dyn D))
                  (wrap64 (vdso_addr + read m d (d_ptr D))) symtab Hn' Hnull)
        as (st & sy & Heq & _ & Hsy).
      exists st, sy. split; [exact Heq|]. split.
      * intros H. apply Hshift in H as [H _]. contradiction.
      * intros H. apply Hshift in H as [_ H]. auto.
    + destruct (IH n (wrap64 (d + sizeof_Dyn D)) strtab
                  (wrap64 (vdso_addr + read m d (d_ptr D))) Hn' Hnull)
        as (st & sy & Heq & Hst & _).
      exists st, sy. split; [exact Heq|]. split.
      * intros H. apply Hshift in H as [_ H]. auto.
      * intros H. apply Hshift in H as [H _]. contradiction.
    + destruct (IH n (wrap64 (d + sizeof_Dyn D)) strtab symtab Hn' Hnull)
        as (st & sy & Heq & Hst & Hsy).
      exists st, sy. split; [exact Heq|]. split.
      * intros H. apply Hshift in H as [_ H]. auto.
      * intros H. apply Hshift in H as [_ H]. auto.
Qed.

(** Without a [DT_NULL] tag among the first [fuel] entries the walk is
    still under way when the fuel is spent. *)
Lemma tables_of_runs_on (m : memory) (vdso_addr : Z) (fuel : nat) :
  forall (d strtab symtab : Z),
    (forall i : nat, (i < fuel)%nat ->
        read m (dyn_at D d i) (d_tag D) <> DT_NULL D) ->
    tables_of D fuel m vdso_addr d strtab symtab = None.
Proof.
  induction fuel as [|fuel IH]; intros d strtab symtab H; [reflexivity|].
  simpl. destruct (Z.eqb_spec (read m d (d_tag D)) (DT_NULL D)) as [E|E].
  - exfalso. apply (H 0%nat); [lia|]. rewrite dyn_at_0. exact E.
  - assert (H' : forall i : nat, (i < fuel)%nat ->
               read m (dyn_at D (wrap64 (d + sizeof_Dyn D)) i) (d_tag D) <> DT_NULL D).
    { intros i Hi. rewrite dyn_at_S. apply H. lia. }
    destruct (read m d (d_tag D) =? DT_STRTAB D);
      [|destruct (read m d (d_tag D) =? DT_SYMTAB D)]; apply IH; exact H'.
Qed.

End DiscoveryFacts.

(** ** The symbol scan, slot by slot *)

Section ScanFacts.

Variable D : ElfDecls.
Variables (m : memory) (vdso_addr strtab symtab : Z).

Local Abbreviation resolve1 := (resolve_entry D m vdso_addr strtab symtab).
Local Abbreviation resolve := (resolve_slot D m vdso_addr strtab symtab).
Local Abbreviation matches e i :=
  (strcmp (name e) m (sym_name_ptr D m strtab symtab i) =? 0).

Lemma match_slot_lookup (i j j' : nat) (t : list vdso_entry) :
  match_slot D m vdso_addr strtab symtab i j t !! j'
  = if decide (j = j') then resolve1 i <$> t !! j' else t !! j'.
Proof.
  unfold match_slot. destruct (t !! j) as [e|] eqn:E.
  - destruct (matches e i) eqn:Hm.
    + rewrite list_lookup_alter. destruct (decide (j = j')) as [<-|]; [|reflexivity].
      rewrite E. simpl. unfold resolve_entry. rewrite Hm. reflexivity.
    + destruct (decide (j = j')) as [<-|]; [|reflexivity].
      rewrite E. simpl. unfold resolve_entry. rewrite Hm. reflexivity.
  - destruct (decide (j = j')) as [<-|]; [|reflexivity].
    rewrite E. reflexivity.
Qed.

Lemma slots_loop_lookup (i n j : nat) (t : list vdso_entry) :
  for_loop n (match_slot D m vdso_addr strtab symtab i) t !! j
  = if decide (j < n)%nat then resolve1 i <$> t !! j else t !! j.
Proof.
  induction n as [|n IH]; simpl.
  - destruct (decide (j < 0)%nat); [lia|reflexivity].
  - rewrite match_slot_lookup, IH.
    destruct (decide (n = j)) as [<-|Hne].
    + destruct (decide (n < n)%nat); [lia|].
      destruct (decide (n < S n)%nat); [reflexivity|lia].
    + destruct (decide (j < n)%nat); destruct (decide (j < S n)%nat);
        try lia; reflexivity.
Qed.

Lemma scan_loop_lookup (n j : nat) (t : list vdso_entry) :
  for_loop n
    (fun i entries => for_loop VDSO_END (match_slot D m vdso_addr strtab symtab i) entries)
    t !! j
  = if decide (j < VDSO_END)%nat then resolve n <$> t !! j else t !! j.
Proof.
  induction n as [|n IH].
  - unfold for_loop at 1. destruct (decide (j < VDSO_END)%nat); [|reflexivity].
    destruct (t !! j); reflexivity.
  - rewrite for_loop_S, slots_loop_lookup, IH.
    destruct (decide (j < VDSO_END)%nat); [|reflexivity].
    destruct (t !! j); reflexivity.
Qed.

Lemma scan_symbols_lookup (symbol_count : Z) (j : nat) (t : list vdso_entry) :
  (j < VDSO_END)%nat ->
  scan_symbols D m symbol_count vdso_addr strtab symtab t !! j
  = resolve (Z.to_nat symbol_count) <$> t !! j.
Proof.
  intros Hj. unfold scan_symbols. rewrite scan_loop_lookup.
  destruct (decide (j < VDSO_END)%nat); [reflexivity|contradiction].
Qed.

Lemma match_slot_length (i j : nat) (t : list vdso_entry) :
  length (match_slot D m vdso_addr strtab symtab i j t) = length t.
Proof.
  unfold match_slot. destruct (t !! j) as [e|]; [|reflexivity].
  destruct (matches e i); [apply length_alter|reflexivity].
Qed.

Lemma slots_loop_length (i n : nat) (t : list vdso_entry) :
  length (for_loop n (match_slot D m vdso_addr strtab symtab i) t) = length t.
Proof.
  induction n as [|n IH]; [reflexivity|].
  rewrite for_loop_S, match_slot_length. exact IH.
Qed.

Lemma scan_symbols_length (symbol_count : Z) (t : list vdso_entry) :
  length (scan_symbols D m symbol_count vdso_addr strtab symtab t) = length t.
Proof.
  unfold scan_symbols.
  induction (Z.to_nat symbol_count) as [|n IH]; [reflexivity|].
  rewrite for_loop_S, slots_loop_length. exact IH.
Qed.

Lemma resolve_entry_name (i : nat) (e : vdso_entry) :
  name (resolve1 i e) = name e.
Proof. unfold resolve_entry. destruct (matches e i); reflexivity. Qed.

Lemma resolve_slot_name (n : nat) (e : vdso_entry) :
  name (resolve n e) = name e.
Proof.
  induction n as [|n IH]; simpl; [reflexivity|].
  unfold resolve_slot in *. simpl. rewrite resolve_entry_name. exact IH.
Qed.

(** On one slot the scan is a loop of overwrites decided by the slot's
    name alone. *)
Lemma resolve_slot_writes (n : nat) (e : vdso_entry) :
  resolve n e
  = for_loop n
      (fun i x => if matches e i
                  then set_fn (sym_target D m vdso_addr symtab i) e
                  else x)
      e.
Proof.
  induction n as [|n IH]; [reflexivity|].
  unfold resolve_slot in *. simpl. rewrite <- IH.
  unfold resolve_entry at 1.
  pose proof (resolve_slot_name n e) as Hname. unfold resolve_slot in Hname.
  rewrite Hname. destruct (matches e n); [|reflexivity].
  unfold set_fn. rewrite Hname. reflexivity.
Qed.

Lemma resolve_slot_last (n k : nat) (e : vdso_entry) :
  (k < n)%nat ->
  strcmp (name e) m (sym_name_ptr D m strtab symtab k) = 0 ->
  (forall i : nat, (k < i < n)%nat ->
      strcmp (name e) m (sym_name_ptr D m strtab symtab i) <> 0) ->
  resolve n e = set_fn (sym_target D m vdso_addr symtab k) e.
Proof.
  intros Hk Hm Hlater. rewrite resolve_slot_writes.
  apply (for_loop_last_write (fun i => matches e i)
           (fun i => set_fn (sym_target D m vdso_addr symtab i) e)).
  - exact Hk.
  - apply Z.eqb_eq. exact Hm.
  - intros i Hi. apply Z.eqb_neq. apply Hlater. exact Hi.
Qed.

Lemma resolve_slot_none (n : nat) (e : vdso_entry) :
  (forall i : nat, (i < n)%nat ->
      strcmp (name e) m (sym_name_ptr D m strtab symtab i) <> 0) ->
  resolve n e = e.
Proof.
  intros H. rewrite resolve_slot_writes.
  apply (for_loop_no_write (fun i => matches e i)
           (fun i => set_fn (sym_target D m vdso_addr symtab i) e)).
  intros i Hi. apply Z.eqb_neq. apply H. exact Hi.
Qed.

Lemma resolve_slot_some (n : nat) (e : vdso_entry) :
  (exists i : nat,
      (i < n)%nat /\ strcmp (name e) m (sym_name_ptr D m strtab symtab i) = 0) ->
  exists k : nat,
    (k < n)%nat
    /\ strcmp (name e) m (sym_name_ptr D m strtab symtab k) = 0
    /\ resolve n e = set_fn (sym_target D m vdso_addr symtab k) e.
Proof.
  intros (i & Hi & Hm). rewrite resolve_slot_writes.
  destruct (for_loop_some_write (fun i => matches e i)
              (fun i => set_fn (sym_target D m vdso_addr symtab i) e) n e)
    as (k & Hk & Hmk & _ & Heq).
  - exists i. split; [exact Hi|]. apply Z.eqb_eq. exact Hm.
  - exists k. split; [exact Hk|]. split; [apply Z.eqb_eq; exact Hmk|exact Heq].
Qed.

Lemma resolve_slot_cases (n : nat) (e : vdso_entry) :
  resolve n e = e
  \/ exists i : nat,
       (i < n)%nat
       /\ strcmp (name e) m (sym_name_ptr D m strtab symtab i) = 0
       /\ resolve n e = set_fn (sym_target D m vdso_addr symtab i) e.
Proof.
  rewrite resolve_slot_writes. induction n as [|n IH]; simpl; [left; reflexivity|].
  destruct (matches e n) eqn:Hm.
  - right. exists n. split; [lia|]. split; [apply Z.eqb_eq; exact Hm|reflexivity].
  - destruct IH as [IH|(i & Hi & Hmi & IH)]; [left; exact IH|].
    right. exists i. split; [lia|]. split; assumption.
Qed.

End ScanFacts.

(** ** The initializer in terms of discovery *)

Section InitFacts.

Variable D : ElfDecls.
Variable target : arch.
Variables (__clock_gettime __gettimeofday : Z).

Local Abbreviation template :=
  (vdso_entries_template target __clock_gettime __gettimeofday).
Local Abbreviation init :=
  (__libc_init_vdso_entries D target __clock_gettime __gettimeofday).

Lemma init_entries_discovery (fuel : nat) (auxv : Z -> Z) (m : memory) :
  init fuel auxv m
  = match discovery D fuel auxv m with
    | None => None
    | Some Aborted => Some template
    | Some (Located symbol_count vdso_addr strtab symtab) =>
        Some (scan_symbols D m symbol_count vdso_addr strtab symtab template)
    end.
Proof.
  unfold __libc_init_vdso_entries, discovery.
  destruct (auxv (AT_SYSINFO_EHDR D) =? 0); [reflexivity|].
  destruct (symbol_count_of D m (auxv (AT_SYSINFO_EHDR D)) =? 0); [reflexivity|].
  destruct (dynamic_of D m (auxv (AT_SYSINFO_EHDR D))) as [a d]. simpl.
  destruct ((a =? 0) || (d =? 0)); [reflexivity|].
  destruct (tables_of D fuel m a d 0 0) as [[st sy]|]; [|reflexivity].
  destruct ((st =? 0) || (sy =? 0)); reflexivity.
Qed.

Lemma discovery_located (fuel : nat) (auxv : Z -> Z) (m : memory)
    (c b st sy : Z) :
  discovery D fuel auxv m = Some (Located c b st sy) ->
  c = symbol_count_of D m (auxv (AT_SYSINFO_EHDR D))
  /\ b = fst (dynamic_of D m (auxv (AT_SYSINFO_EHDR D)))
  /\ c <> 0 /\ b <> 0 /\ st <> 0 /\ sy <> 0.
Proof.
  unfold discovery.
  destruct (auxv (AT_SYSINFO_EHDR D) =? 0); [discriminate|].
  destruct (Z.eqb_spec (symbol_count_of D m (auxv (AT_SYSINFO_EHDR D))) 0);
    [discriminate|].
  destruct (dynamic_of D m (auxv (AT_SYSINFO_EHDR D))) as [a d]. simpl.
  destruct (Z.eqb_spec a 0); [discriminate|]. simpl.
  destruct (d =? 0); [discriminate|].
  destruct (tables_of D fuel m a d 0 0) as [[st' sy']|]; [|discriminate].
  destruct (Z.eqb_spec st' 0); [discriminate|]. simpl.
  destruct (Z.eqb_spec sy' 0); [discriminate|].
  intros [= <- <- <- <-]. repeat split; assumption.
Qed.

Lemma abort_cause_discovery (fuel : nat) (auxv : Z -> Z) (m : memory) :
  abort_cause D fuel auxv m -> discovery D fuel auxv m = Some Aborted.
Proof.
  intros H. unfold discovery.
  destruct (Z.eqb_spec (auxv (AT_SYSINFO_EHDR D)) 0) as [|Hbase]; [reflexivity|].
  destruct (Z.eqb_spec (symbol_count_of D m (auxv (AT_SYSINFO_EHDR D))) 0)
    as [|Hcount]; [reflexivity|].
  destruct (Z.eqb_spec (fst (dynamic_of D m (auxv (AT_SYSINFO_EHDR D)))) 0)
    as [|Haddr]; [reflexivity|].
  destruct (Z.eqb_spec (snd (dynamic_of D m (auxv (AT_SYSINFO_EHDR D)))) 0)
    as [|Hdyn]; [reflexivity|].
  simpl. destruct H as [H|H|H|H|H|n Hn Hnull H|n Hn Hnull H].
  - contradiction.
  - apply symbol_count_of_none in H. contradiction.
  - contradiction.
  - apply dynamic_of_no_dynamic in H. contradiction.
  - apply dynamic_of_no_load in H. contradiction.
  - destruct (tables_of_ends D m (fst (dynamic_of D m (auxv (AT_SYSINFO_EHDR D))))
                fuel n _ 0 0 Hn Hnull) as (st & sy & Heq & Hst & _).
    rewrite Heq, (Hst H). reflexivity.
  - destruct (tables_of_ends D m (fst (dynamic_of D m (auxv (AT_SYSINFO_EHDR D))))
                fuel n _ 0 0 Hn Hnull) as (st & sy & Heq & _ & Hsy).
    rewrite Heq, (Hsy H). rewrite orb_true_r. reflexivity.
Qed.

(** Discovery comes to a result as soon as the walk over the dynamic
    section, if it is reached at all, meets its end within the fuel. *)
Lemma discovery_total (fuel : nat) (auxv : Z -> Z) (m : memory) :
  (reaches_walk D auxv m = true ->
   walk_ends D fuel m (snd (dynamic_of D m (auxv (AT_SYSINFO_EHDR D))))) ->
  exists r, discovery D fuel auxv m = Some r.
Proof.
  unfold reaches_walk, discovery. intros H.
  destruct (auxv (AT_SYSINFO_EHDR D) =? 0); [eauto|].
  destruct (symbol_count_of D m (auxv (AT_SYSINFO_EHDR D)) =? 0); [eauto|].
  destruct (fst (dynamic_of D m (auxv (AT_SYSINFO_EHDR D))) =? 0); [eauto|].
  destruct (snd (dynamic_of D m (auxv (AT_SYSINFO_EHDR D))) =? 0); [eauto|].
  simpl in *. destruct (H eq_refl) as (n & Hn & Hnull).
  destruct (tables_of_ends D m (fst (dynamic_of D m (auxv (AT_SYSINFO_EHDR D))))
              fuel n _ 0 0 Hn Hnull) as (st & sy & Heq & _).
  rewrite Heq. destruct ((st =? 0) || (sy =? 0)); eauto.
Qed.

Lemma discovery_runs_on (fuel : nat) (auxv : Z -> Z) (m : memory) :
  reaches_walk D auxv m = true ->
  (forall i : nat, (i < fuel)%nat ->
      read m (dyn_at D (snd (dynamic_of D m (auxv (AT_SYSINFO_EHDR D)))) i) (d_tag D)
        <> DT_NULL D) ->
  discovery D fuel auxv m = None.
Proof.
  unfold reaches_walk, discovery. intros Hr H.
  destruct (auxv (AT_SYSINFO_EHDR D) =? 0); [discriminate|].
  destruct (symbol_count_of D m (auxv (AT_SYSINFO_EHDR D)) =? 0); [discriminate|].
  destruct (fst (dynamic_of D m (auxv (AT_SYSINFO_EHDR D))) =? 0); [discriminate|].
  destruct (snd (dynamic_of D m (auxv (AT_SYSINFO_EHDR D))) =? 0); [discriminate|].
  simpl. rewrite tables_of_runs_on by exact H. reflexivity.
Qed.

Lemma template_lookup (j : nat) (e : vdso_entry) :
  template !! j = Some e ->
  (j = VDSO_CLOCK_GETTIME
   /\ e = {| name := VDSO_CLOCK_GETTIME_SYMBOL target; fn := __clock_gettime |})
  \/ (j = VDSO_GETTIMEOFDAY
      /\ e = {| name := VDSO_GETTIMEOFDAY_SYMBOL target; fn := __gettimeofday |}).
Proof.
  destruct j as [|[|j]]; simpl; intros [= <-]; auto.
Qed.

Lemma template_nul_free (j : nat) (e : vdso_entry) :
  template !! j = Some e -> nul_free (name e) = true.
Proof.
  intros H. destruct (symbol_names_nul_free target) as [Hc Hg].
  apply template_lookup in H as [[_ ->]|[_ ->]]; assumption.
Qed.

Lemma template_lookup_lt (j : nat) (e : vdso_entry) :
  template !! j = Some e -> (j < VDSO_END)%nat.
Proof.
  intros H. apply template_lookup in H as [[-> _]|[-> _]];
    unfold VDSO_CLOCK_GETTIME, VDSO_GETTIMEOFDAY, VDSO_END; lia.
Qed.

(** A slot after a completed scan. *)
Lemma located_slot (fuel : nat) (auxv : Z -> Z) (m : memory)
    (c b st sy : Z) (j : nat) (e : vdso_entry) :
  discovery D fuel auxv m = Some (Located c b st sy) ->
  template !! j = Some e ->
  exists t,
    init fuel auxv m = Some t
    /\ t !! j = Some (resolve_slot D m b st sy (Z.to_nat c) e).
Proof.
  intros Hd He. rewrite init_entries_discovery, Hd.
  eexists. split; [reflexivity|].
  rewrite scan_symbols_lookup by (eapply template_lookup_lt; exact He).
  rewrite He. reflexivity.
Qed.

End InitFacts.

(** * The claims *)

Section Claims.

Variable D : ElfDecls.
Variable target : arch.
Variables (__clock_gettime __gettimeofday : Z).
Variable strerror : Z -> string.

Local Abbreviation template :=
  (vdso_entries_template target __clock_gettime __gettimeofday).
Local Abbreviation init :=
  (__libc_init_vdso_entries D target __clock_gettime __gettimeofday).
Local Abbreviation run :=
  (__libc_init_vdso D target __clock_gettime __gettimeofday strerror).

(** C9: when several section headers have type SHT_DYNSYM, the symbol
    count that bounds the scan is the byte size of the last of them, in
    section-header order, divided by the size of a symbol; what an earlier
    one gave is discarded.  The initializer scans the entries below that
    count and no other: a slot whose name is borne by none of them keeps
    its fallback, and otherwise holds the value of the last of them that
    bears it. *)
Theorem symbol_count_from_last_dynsym (m : memory) (ehdr : Z) (k : nat) :
  (k < Z.to_nat (read m ehdr (e_shnum D)))%nat ->
  read m (shdr_at D m ehdr k) (sh_type D) = SHT_DYNSYM D ->
  (forall i : nat,
      (k < i < Z.to_nat (read m ehdr (e_shnum D)))%nat ->
      read m (shdr_at D m ehdr i) (sh_type D) <> SHT_DYNSYM D) ->
  symbol_count_of D m ehdr
    = read m (shdr_at D m ehdr k) (sh_size D) / sizeof_Sym D
  /\ forall (fuel : nat) (auxv : Z -> Z) (c b st sy : Z),
       auxv (AT_SYSINFO_EHDR D) = ehdr ->
       discovery D fuel auxv m = Some (Located c b st sy) ->
       c = read m (shdr_at D m ehdr k) (sh_size D) / sizeof_Sym D
       /\ exists t : list vdso_entry,
            init fuel auxv m = Some t
            /\ forall (j : nat) (e : vdso_entry),
                 template !! j = Some e ->
                 ((forall i : nat,
                      (i < Z.to_nat (read m (shdr_at D m ehdr k) (sh_size D)
                                     / sizeof_Sym D))%nat ->
                      ~ cstring_at m (sym_name_ptr D m st sy i) (name e)) ->
                  slot_fn t j = fn e)
                 /\ (forall i2 : nat,
                        (i2 < Z.to_nat (read m (shdr_at D m ehdr k) (sh_size D)
                                        / sizeof_Sym D))%nat ->
                        cstring_at m (sym_name_ptr D m st sy i2) (name e) ->
                        (forall i : nat,
                            (i2 < i < Z.to_nat (read m (shdr_at D m ehdr k) (sh_size D)
                                                / sizeof_Sym D))%nat ->
                            ~ cstring_at m (sym_name_ptr D m st sy i) (name e)) ->
                        slot_fn t j
                        = wrap64 (b + read m (sym_at D sy i2) (st_value D))).
Proof.
  intros Hk Htype Hlater.
  assert (Hcount : symbol_count_of D m ehdr
                   = read m (shdr_at D m ehdr k) (sh_size D) / sizeof_Sym D).
  { unfold symbol_count_of.
    apply (for_loop_last_write
             (fun i => read m (shdr_at D m ehdr i) (sh_type D) =? SHT_DYNSYM D)
             (fun i => read m (shdr_at D m ehdr i) (sh_size D) / sizeof_Sym D)).
    - exact Hk.
    - apply Z.eqb_eq. exact Htype.
    - intros i Hi. apply Z.eqb_neq. apply Hlater. exact Hi. }
  split; [exact Hcount|].
  intros fuel auxv c b st sy Haux Hd.
  assert (Hc : c = read m (shdr_at D m ehdr k) (sh_size D) / sizeof_Sym D).
  { pose proof (discovery_located D fuel auxv m c b st sy Hd) as (-> & _).
    rewrite Haux. exact Hcount. }
  split; [exact Hc|]. rewrite <- Hc.
  assert (Hinit : exists t, init fuel auxv m = Some t
                            /\ t = scan_symbols D m c b st sy template).
  { rewrite init_entries_discovery, Hd. eauto. }
  destruct Hinit as (t & Hinit & Ht). exists t. split; [exact Hinit|].
  intros j e He.
  assert (Hslot : t !! j = Some (resolve_slot D m b st sy (Z.to_nat c) e)).
  { rewrite Ht, scan_symbols_lookup
      by (apply (template_lookup_lt target __clock_gettime __gettimeofday j e He)).
    rewrite He. reflexivity. }
  pose proof (template_nul_free target __clock_gettime __gettimeofday j e He) as Hfree.
  unfold slot_fn. rewrite Hslot. split.
  - intros Hnone. rewrite resolve_slot_none; [reflexivity|].
    intros i Hi Hm. apply (Hnone i Hi). apply strcmp_cstring_at; assumption.
  - intros i2 Hi2 Hname Hafter.
    rewrite (resolve_slot_last D m b st sy (Z.to_nat c) i2 e); [reflexivity|exact Hi2| |].
    + apply cstring_at_strcmp. exact Hname.
    + intros i Hi Hm. apply (Hafter i Hi). apply strcmp_cstring_at; assumption.
Qed.

(** C3, as amended: the load bias is computed from the last
    loadable-segment descriptor met while scanning the program headers, as
    object base + that segment's file offset - its declared virtual
    address, modulo 2^64; with several loadable segments the later one
    replaces the earlier. *)
Theorem load_bias_from_last_load (m : memory) (ehdr : Z) (k : nat) :
  PT_LOAD D <> PT_DYNAMIC D ->
  (k < Z.to_nat (read m ehdr (e_phnum D)))%nat ->
  read m (phdr_at D m ehdr k) (p_type D) = PT_LOAD D ->
  (forall i : nat,
      (k < i < Z.to_nat (read m ehdr (e_phnum D)))%nat ->
      read m (phdr_at D m ehdr i) (p_type D) <> PT_LOAD D) ->
  fst (dynamic_of D m ehdr)
    = wrap64 (ehdr + read m (phdr_at D m ehdr k) (p_offset D)
              - read m (phdr_at D m ehdr k) (p_vaddr D))
  /\ forall (fuel : nat) (auxv : Z -> Z) (c b st sy : Z),
       auxv (AT_SYSINFO_EHDR D) = ehdr ->
       discovery D fuel auxv m = Some (Located c b st sy) ->
       b = wrap64 (ehdr + read m (phdr_at D m ehdr k) (p_offset D)
                   - read m (phdr_at D m ehdr k) (p_vaddr D)).
Proof.
  intros Hdistinct Hk Htype Hlater.
  assert (Hbias : fst (dynamic_of D m ehdr) = bias_of D m ehdr k).
  { unfold dynamic_of. rewrite fst_phdr_loop. simpl.
    apply (for_loop_last_write (is_load D m ehdr) (bias_of D m ehdr)).
    - exact Hk.
    - unfold is_load. rewrite Htype, Z.eqb_refl.
      destruct (Z.eqb_spec (PT_LOAD D) (PT_DYNAMIC D)); [contradiction|reflexivity].
    - intros i Hi. unfold is_load. apply andb_false_iff. right.
      apply Z.eqb_neq. apply Hlater. exact Hi. }
  split; [exact Hbias|].
  intros fuel auxv c b st sy Haux Hd.
  apply discovery_located in Hd as (_ & -> & _). rewrite Haux. exact Hbias.
Qed.

(** C4: whenever discovery aborts -- the auxiliary vector gives base
    address zero, there is no dynamic-symbol section or the symbol count
    derived from it is zero, the program headers have no dynamic-section
    or no loadable-segment descriptor, or the dynamic section has no
    string-table or no symbol-table entry -- both slots equal their
    fallback addresses exactly, and the initializer reports nothing: it
    returns normally once its two system calls succeed. *)
Theorem aborted_discovery_keeps_fallbacks (fuel : nat) (auxv : Z -> Z)
    (m : memory) :
  abort_cause D fuel auxv m ->
  init fuel auxv m = Some template
  /\ slot_fn template VDSO_CLOCK_GETTIME = __clock_gettime
  /\ slot_fn template VDSO_GETTIMEOFDAY = __gettimeofday
  /\ forall k : os,
       getauxval k = auxv ->
       ret (mmap k) <> MAP_FAILED D ->
       ret (mprotect k) <> -1 ->
       exists p, run fuel k m = Some (Returned p) /\ table p = template.
Proof.
  intros H. apply abort_cause_discovery in H.
  assert (Hinit : init fuel auxv m = Some template).
  { rewrite init_entries_discovery, H. reflexivity. }
  split; [exact Hinit|]. split; [reflexivity|]. split; [reflexivity|].
  intros k Haux Hmmap Hmprotect. unfold __libc_init_vdso.
  destruct (Z.eqb_spec (ret (mmap k)) (MAP_FAILED D)); [contradiction|].
  rewrite Haux, Hinit.
  destruct (Z.eqb_spec (ret (mprotect k)) (-1)); [contradiction|].
  eexists. split; reflexivity.
Qed.

(** *** What a finished initialization leaves in the table *)

Lemma init_table_shape (fuel : nat) (auxv : Z -> Z) (m : memory)
    (t : list vdso_entry) :
  init fuel auxv m = Some t ->
  exists x y : vdso_entry,
    t = [x; y]
    /\ name x = VDSO_CLOCK_GETTIME_SYMBOL target
    /\ name y = VDSO_GETTIMEOFDAY_SYMBOL target.
Proof.
  rewrite init_entries_discovery.
  destruct (discovery D fuel auxv m) as [[|c b st sy]|] eqn:Hd; [| |discriminate].
  - intros [= <-]. do 2 eexists. split; [reflexivity|]. split; reflexivity.
  - intros [= <-].
    pose proof (scan_symbols_length D m b st sy c template) as Hlen.
    pose proof (scan_symbols_lookup D m b st sy c 0 template) as H0.
    pose proof (scan_symbols_lookup D m b st sy c 1 template) as H1.
    destruct (scan_symbols D m c b st sy template) as [|x [|y [|z t]]];
      try discriminate Hlen.
    exists x, y. split; [reflexivity|].
    specialize (H0 ltac:(unfold VDSO_END; lia)).
    specialize (H1 ltac:(unfold VDSO_END; lia)).
    simpl in H0, H1. injection H0 as ->. injection H1 as ->.
    rewrite !resolve_slot_name. split; reflexivity.
Qed.

Lemma run_returned (fuel : nat) (k : os) (m : memory) (p : process) :
  run fuel k m = Some (Returned p) ->
  init fuel (getauxval k) m = Some (table p)
  /\ protection p = PROT_READ D
  /\ vdso_entries p = ret (mmap k)
  /\ ret (mmap k) <> MAP_FAILED D
  /\ ret (mprotect k) <> -1.
Proof.
  unfold __libc_init_vdso.
  destruct (Z.eqb_spec (ret (mmap k)) (MAP_FAILED D)); [discriminate|].
  destruct (init fuel (getauxval k) m) as [t|]; [|discriminate].
  destruct (Z.eqb_spec (ret (mprotect k)) (-1)); [discriminate|].
  intros [= <-]. simpl. auto.
Qed.

(** With every loadable segment mapping virtual address 0 to file offset
    0, the load bias is the object's base address. *)
Lemma bias_is_base (m : memory) (ehdr : Z) :
  0 <= ehdr < 2 ^ 64 ->
  (forall k : nat,
      (k < Z.to_nat (read m ehdr (e_phnum D)))%nat ->
      read m (phdr_at D m ehdr k) (p_type D) = PT_LOAD D ->
      read m (phdr_at D m ehdr k) (p_offset D) = 0
      /\ read m (phdr_at D m ehdr k) (p_vaddr D) = 0) ->
  fst (dynamic_of D m ehdr) <> 0 ->
  fst (dynamic_of D m ehdr) = ehdr.
Proof.
  intros Hrange Hload. unfold dynamic_of. rewrite fst_phdr_loop. simpl.
  destruct (for_loop_write_cases (is_load D m ehdr) (bias_of D m ehdr)
              (Z.to_nat (read m ehdr (e_phnum D))) 0)
    as [->|(k & Hk & Hc & ->)]; [contradiction|].
  intros _. unfold is_load in Hc. apply andb_true_iff in Hc as [_ Hc].
  apply Z.eqb_eq in Hc. destruct (Hload k Hk Hc) as [Ho Hv].
  unfold bias_of. rewrite Ho, Hv.
  replace (ehdr + 0 - 0) with ehdr by lia. apply wrap64_small. exact Hrange.
Qed.

(** C1: for an object whose loadable segment maps virtual address 0 to
    file offset 0 and whose dynamic symbol table has an entry named
    exactly as the clock slot, with symbol value 0x1000, the
    CLOCK_GETTIME slot holds the object's base address plus 0x1000 after
    initialization. *)
Theorem clock_slot_at_base_plus_0x1000 (fuel : nat) (auxv : Z -> Z)
    (m : memory) (c b st sy : Z) (i : nat) :
  0 <= auxv (AT_SYSINFO_EHDR D) ->
  auxv (AT_SYSINFO_EHDR D) + 0x1000 < 2 ^ 64 ->
  discovery D fuel auxv m = Some (Located c b st sy) ->
  (forall k : nat,
      (k < Z.to_nat (read m (auxv (AT_SYSINFO_EHDR D)) (e_phnum D)))%nat ->
      read m (phdr_at D m (auxv (AT_SYSINFO_EHDR D)) k) (p_type D) = PT_LOAD D ->
      read m (phdr_at D m (auxv (AT_SYSINFO_EHDR D)) k) (p_offset D) = 0
      /\ read m (phdr_at D m (auxv (AT_SYSINFO_EHDR D)) k) (p_vaddr D) = 0) ->
  (i < Z.to_nat c)%nat ->
  cstring_at m (sym_name_ptr D m st sy i) (VDSO_CLOCK_GETTIME_SYMBOL target) ->
  (forall i' : nat,
      (i' < Z.to_nat c)%nat ->
      cstring_at m (sym_name_ptr D m st sy i') (VDSO_CLOCK_GETTIME_SYMBOL target) ->
      read m (sym_at D sy i') (st_value D) = 0x1000) ->
  exists t,
    init fuel auxv m = Some t
    /\ slot_fn t VDSO_CLOCK_GETTIME = auxv (AT_SYSINFO_EHDR D) + 0x1000.
Proof.
  intros Hlo Hhi Hd Hload Hi Hname Hvalue.
  destruct (located_slot D target __clock_gettime __gettimeofday
              fuel auxv m c b st sy VDSO_CLOCK_GETTIME _ Hd eq_refl)
    as (t & Hinit & Hslot).
  exists t. split; [exact Hinit|].
  destruct (resolve_slot_some D m b st sy (Z.to_nat c)
              {| name := VDSO_CLOCK_GETTIME_SYMBOL target; fn := __clock_gettime |})
    as (k & Hk & Hmk & Heq).
  { exists i. split; [exact Hi|]. apply cstring_at_strcmp. exact Hname. }
  unfold slot_fn. rewrite Hslot, Heq. simpl.
  apply strcmp_cstring_at in Hmk;
    [|apply (symbol_names_nul_free target)].
  unfold sym_target. rewrite (Hvalue k Hk Hmk).
  pose proof (discovery_located D fuel auxv m c b st sy Hd)
    as (_ & Hb & _ & Hnz & _).
  rewrite Hb in Hnz |- *.
  rewrite (bias_is_base m (auxv (AT_SYSINFO_EHDR D))); [|lia|exact Hload|exact Hnz].
  apply wrap64_small. lia.
Qed.

(** C2: when the same wanted name is carried by more than one entry of
    the symbol table, the slot of that name ends up holding the
    bias-translated value of the entry at the later scan position; what
    an earlier match stored is overwritten. *)
Theorem later_duplicate_wins (fuel : nat) (auxv : Z -> Z) (m : memory)
    (c b st sy : Z) (j : nat) (e : vdso_entry) (i1 i2 : nat) :
  discovery D fuel auxv m = Some (Located c b st sy) ->
  template !! j = Some e ->
  (i1 < i2 < Z.to_nat c)%nat ->
  cstring_at m (sym_name_ptr D m st sy i1) (name e) ->
  cstring_at m (sym_name_ptr D m st sy i2) (name e) ->
  (forall i : nat,
      (i2 < i < Z.to_nat c)%nat ->
      ~ cstring_at m (sym_name_ptr D m st sy i) (name e)) ->
  exists t,
    init fuel auxv m = Some t
    /\ slot_fn t j = wrap64 (b + read m (sym_at D sy i2) (st_value D)).
Proof.
  intros Hd He Hi _ Hname Hlater.
  destruct (located_slot D target __clock_gettime __gettimeofday
              fuel auxv m c b st sy j e Hd He) as (t & Hinit & Hslot).
  exists t. split; [exact Hinit|].
  unfold slot_fn. rewrite Hslot.
  rewrite (resolve_slot_last D m b st sy (Z.to_nat c) i2 e).
  - reflexivity.
  - lia.
  - apply cstring_at_strcmp. exact Hname.
  - intros i Hi' Hm. apply (Hlater i Hi').
    apply strcmp_cstring_at; [|exact Hm].
    apply (template_nul_free target __clock_gettime __gettimeofday j e He).
Qed.

(** C5: when the symbol table carries exactly one of the two wanted names,
    only the slot of that name holds a discovered, bias-translated
    address after initialization; the other slot still holds its
    fallback. *)
Theorem only_matching_slot_changes (fuel : nat) (auxv : Z -> Z) (m : memory)
    (c b st sy : Z) (j j' : nat) (e e' : vdso_entry) :
  discovery D fuel auxv m = Some (Located c b st sy) ->
  template !! j = Some e ->
  template !! j' = Some e' ->
  (exists i : nat,
      (i < Z.to_nat c)%nat /\ cstring_at m (sym_name_ptr D m st sy i) (name e)) ->
  (forall i : nat,
      (i < Z.to_nat c)%nat -> ~ cstring_at m (sym_name_ptr D m st sy i) (name e')) ->
  exists t,
    init fuel auxv m = Some t
    /\ (exists k : nat,
           (k < Z.to_nat c)%nat
           /\ cstring_at m (sym_name_ptr D m st sy k) (name e)
           /\ slot_fn t j = wrap64 (b + read m (sym_at D sy k) (st_value D)))
    /\ slot_fn t j' = fn e'.
Proof.
  intros Hd He He' (i & Hi & Hname) Hnone.
  destruct (located_slot D target __clock_gettime __gettimeofday
              fuel auxv m c b st sy j e Hd He) as (t & Hinit & Hslot).
  destruct (located_slot D target __clock_gettime __gettimeofday
              fuel auxv m c b st sy j' e' Hd He') as (t' & Hinit' & Hslot').
  rewrite Hinit in Hinit'. injection Hinit' as <-.
  exists t. split; [exact Hinit|]. split.
  - destruct (resolve_slot_some D m b st sy (Z.to_nat c) e)
      as (k & Hk & Hmk & Heq).
    { exists i. split; [exact Hi|]. apply cstring_at_strcmp. exact Hname. }
    exists k. split; [exact Hk|]. split.
    + apply strcmp_cstring_at; [|exact Hmk].
      apply (template_nul_free target __clock_gettime __gettimeofday j e He).
    + unfold slot_fn. rewrite Hslot, Heq. reflexivity.
  - unfold slot_fn. rewrite Hslot'.
    rewrite (resolve_slot_none D m b st sy (Z.to_nat c) e'); [reflexivity|].
    intros i' Hi' Hm. apply (Hnone i' Hi').
    apply strcmp_cstring_at; [|exact Hm].
    apply (template_nul_free target __clock_gettime __gettimeofday j' e' He').
Qed.


(** C7, as amended: after initialization completes, every slot holds
    either its fallback address or the bias-translated value (load bias
    plus symbol value, modulo 2^64) of a scanned symbol of the slot's
    name; it is non-null whenever the fallback is non-null and no such
    symbol's translated value is zero. *)
Theorem slots_fallback_or_discovered (fuel : nat) (auxv : Z -> Z)
    (m : memory) (t : list vdso_entry) (j : nat) (e : vdso_entry) :
  init fuel auxv m = Some t ->
  template !! j = Some e ->
  (slot_fn t j = fn e
   \/ exists (c b st sy : Z) (i : nat),
        discovery D fuel auxv m = Some (Located c b st sy)
        /\ (i < Z.to_nat c)%nat
        /\ cstring_at m (sym_name_ptr D m st sy i) (name e)
        /\ slot_fn t j = wrap64 (b + read m (sym_at D sy i) (st_value D)))
  /\ (fn e <> 0 ->
      (forall (c b st sy : Z) (i : nat),
          discovery D fuel auxv m = Some (Located c b st sy) ->
          (i < Z.to_nat c)%nat ->
          cstring_at m (sym_name_ptr D m st sy i) (name e) ->
          wrap64 (b + read m (sym_at D sy i) (st_value D)) <> 0) ->
      slot_fn t j <> 0).
Proof.
  intros Hinit He.
  assert (Hcases :
    slot_fn t j = fn e
    \/ exists (c b st sy : Z) (i : nat),
         discovery D fuel auxv m = Some (Located c b st sy)
         /\ (i < Z.to_nat c)%nat
         /\ cstring_at m (sym_name_ptr D m st sy i) (name e)
         /\ slot_fn t j = wrap64 (b + read m (sym_at D sy i) (st_value D))).
  { destruct (discovery D fuel auxv m) as [[|c b st sy]|] eqn:Hd.
    - left. rewrite init_entries_discovery, Hd in Hinit.
      injection Hinit as <-. unfold slot_fn. rewrite He. reflexivity.
    - destruct (located_slot D target __clock_gettime __gettimeofday
                  fuel auxv m c b st sy j e Hd He) as (t' & Hinit' & Hslot).
      rewrite Hinit in Hinit'. injection Hinit' as <-.
      unfold slot_fn. rewrite Hslot.
      destruct (resolve_slot_cases D m b st sy (Z.to_nat c) e)
        as [->|(i & Hi & Hm & ->)]; [left; reflexivity|].
      right. exists c, b, st, sy, i. split; [reflexivity|].
      split; [exact Hi|]. split; [|reflexivity].
      apply strcmp_cstring_at; [|exact Hm].
      apply (template_nul_free target __clock_gettime __gettimeofday j e He).
    - rewrite init_entries_discovery, Hd in Hinit. discriminate. }
  split; [exact Hcases|].
  intros Hfn Htargets.
  destruct Hcases as [->|(c & b & st & sy & i & Hd & Hi & Hname & ->)].
  - exact Hfn.
  - apply (Htargets c b st sy i Hd Hi Hname).
Qed.

(** C10: discovery only ever overwrites the address field of a slot; the
    name field of every slot is its compile-time symbol string after
    initialization, in a table that is read-only from then on. *)
Theorem slot_names_fixed (fuel : nat) (k : os) (m : memory) (p : process) :
  run fuel k m = Some (Returned p) ->
  map name (table p)
    = [VDSO_CLOCK_GETTIME_SYMBOL target; VDSO_GETTIMEOFDAY_SYMBOL target]
  /\ map name (table p) = map name template
  /\ protection p = PROT_READ D.
Proof.
  intros H. apply run_returned in H as (Hinit & Hprot & _).
  destruct (init_table_shape fuel (getauxval k) m (table p) Hinit)
    as (x & y & -> & Hx & Hy).
  simpl. rewrite Hx, Hy. auto.
Qed.

Variable world : Type.
Variable invoke : Z -> Z -> Z -> world -> Z * world.

(** C8: each trampoline loads its slot's address from the finished table,
    calls it with the caller's arguments unchanged, and hands back exactly
    what the call gives: its return value and the state it leaves, with
    the outputs it wrote and the error indicator it set; it does nothing
    else. *)
Theorem trampolines_forward (fuel : nat) (k : os) (m : memory) (p : process) :
  run fuel k m = Some (Returned p) ->
  (forall (clock_id tp : Z) (w : world),
      clock_gettime world invoke p clock_id tp w
      = Some (invoke (slot_fn (table p) VDSO_CLOCK_GETTIME) clock_id tp w))
  /\ (forall (tv tz : Z) (w : world),
         gettimeofday world invoke p tv tz w
         = Some (invoke (slot_fn (table p) VDSO_GETTIMEOFDAY) tv tz w)).
Proof.
  intros H. apply run_returned in H as (Hinit & _).
  destruct (init_table_shape fuel (getauxval k) m (table p) Hinit)
    as (x & y & Ht & _).
  unfold clock_gettime, gettimeofday, slot_fn. rewrite Ht.
  split; intros; reflexivity.
Qed.

End Claims.

(** * Runs on the synthetic objects *)

Import Synthetic.

Lemma symbol_count_from_last_dynsym_witness :
  read two_dynsyms (shdr_at elf64 two_dynsyms base 0) (sh_size elf64)
    / sizeof_Sym elf64 = 5
  /\ symbol_count_of elf64 two_dynsyms base = 2
  /\ cstring_at two_dynsyms
       (sym_name_ptr elf64 two_dynsyms (base + 0x300) (base + 0x200) 2)
       "__kernel_clock_gettime"
  /\ exists t : list vdso_entry,
       __libc_init_vdso_entries elf64 aarch64 sys_clock_gettime sys_gettimeofday
         8 auxv two_dynsyms = Some t
       /\ slot_fn t VDSO_CLOCK_GETTIME = sys_clock_gettime
       /\ slot_fn t VDSO_GETTIMEOFDAY = base + 0x1100.
Proof.
  split; [vm_compute; reflexivity|].
  destruct (symbol_count_from_last_dynsym elf64 aarch64
              sys_clock_gettime sys_gettimeofday two_dynsyms base 2)
    as [Hcount Hscan].
  - vm_compute. lia.
  - vm_compute. reflexivity.
  - intros i Hi. vm_compute in Hi. lia.
  - split; [rewrite Hcount; vm_compute; reflexivity|].
    split; [vm_compute; repeat split; intros E; discriminate E|].
    destruct (Hscan 8%nat auxv 2 base (base + 0x300) (base + 0x200))
      as (_ & t & Hinit & Hslots).
    + reflexivity.
    + vm_compute. reflexivity.
    + exists t. split; [exact Hinit|]. split.
      * apply (Hslots VDSO_CLOCK_GETTIME
                 {| name := "__kernel_clock_gettime"; fn := sys_clock_gettime |}
                 eq_refl).
        intros i Hi Hname. vm_compute in Hi. apply cstring_at_strcmp in Hname.
        destruct i as [|[|i]]; [| |lia]; vm_compute in Hname; discriminate Hname.
      * rewrite (proj2 (Hslots VDSO_GETTIMEOFDAY
                          {| name := "__kernel_gettimeofday"; fn := sys_gettimeofday |}
                          eq_refl) 1%nat).
        -- vm_compute. reflexivity.
        -- vm_compute. lia.
        -- vm_compute. repeat split; intros E; discriminate E.
        -- intros i Hi. vm_compute in Hi. lia.
Defined.

(** C3 fails as stated: with two loadable segments the bias comes from the
    second one, and the clock slot is translated with it. *)
Lemma first_load_segment_not_used :
  read two_loads (phdr_at elf64 two_loads base 0) (p_type elf64) = PT_LOAD elf64
  /\ bias_of elf64 two_loads base 0 = base
  /\ fst (dynamic_of elf64 two_loads base) = base + 0x2000
  /\ fst (dynamic_of elf64 two_loads base) <> bias_of elf64 two_loads base 0
  /\ (fun t => slot_fn t VDSO_CLOCK_GETTIME)
       <$> __libc_init_vdso_entries elf64 aarch64
             sys_clock_gettime sys_gettimeofday 8 auxv two_loads
     = Some (base + 0x2000 + 0x1000).
Proof.
  split; [vm_compute; reflexivity|].
  split; [vm_compute; reflexivity|].
  split; [vm_compute; reflexivity|].
  split; [vm_compute; discriminate|].
  vm_compute. reflexivity.
Defined.

Lemma load_bias_from_last_load_witness :
  fst (dynamic_of elf64 two_loads base) = base + 0x3000 - 0x1000.
Proof.
  destruct (load_bias_from_last_load elf64 two_loads base 2) as [H _].
  - vm_compute. discriminate.
  - vm_compute. lia.
  - vm_compute. reflexivity.
  - intros i Hi. vm_compute in Hi. lia.
  - rewrite H. vm_compute. reflexivity.
Defined.

Lemma aborted_discovery_keeps_fallbacks_witness :
  __libc_init_vdso_entries elf64 aarch64 sys_clock_gettime sys_gettimeofday
    0 no_auxv clock_only
  = Some (vdso_entries_template aarch64 sys_clock_gettime sys_gettimeofday).
Proof.
  apply (aborted_discovery_keeps_fallbacks elf64 aarch64
           sys_clock_gettime sys_gettimeofday strerror 0 no_auxv clock_only).
  apply vdso_absent. reflexivity.
Defined.

Lemma clock_slot_at_base_plus_0x1000_witness :
  exists t,
    __libc_init_vdso_entries elf64 aarch64 sys_clock_gettime sys_gettimeofday
      8 auxv clock_only = Some t
    /\ slot_fn t VDSO_CLOCK_GETTIME = base + 0x1000.
Proof.
  apply (clock_slot_at_base_plus_0x1000 elf64 aarch64
           sys_clock_gettime sys_gettimeofday 8 auxv clock_only
           3 base (base + 0x300) (base + 0x200) 2).
  - vm_compute. discriminate.
  - vm_compute. reflexivity.
  - vm_compute. reflexivity.
  - intros k Hk Htype. vm_compute in Hk.
    destruct k as [|[|k]]; [split; vm_compute; reflexivity| |lia].
    vm_compute in Htype. discriminate Htype.
  - vm_compute. lia.
  - vm_compute. repeat split; discriminate.
  - intros i' Hi' Hname. vm_compute in Hi'. apply cstring_at_strcmp in Hname.
    destruct i' as [|[|[|i']]]; [| |vm_compute; reflexivity|lia];
      vm_compute in Hname; discriminate Hname.
Defined.

Lemma later_duplicate_wins_witness :
  exists t,
    __libc_init_vdso_entries elf64 aarch64 sys_clock_gettime sys_gettimeofday
      8 auxv clock_twice = Some t
    /\ slot_fn t VDSO_CLOCK_GETTIME = base + 0x2000.
Proof.
  destruct (later_duplicate_wins elf64 aarch64 sys_clock_gettime sys_gettimeofday
              8 auxv clock_twice 3 base (base + 0x300) (base + 0x200)
              VDSO_CLOCK_GETTIME
              {| name := "__kernel_clock_gettime"; fn := sys_clock_gettime |} 1 2)
    as (t & Hinit & Hslot).
  - vm_compute. reflexivity.
  - reflexivity.
  - vm_compute. lia.
  - vm_compute. repeat split; discriminate.
  - vm_compute. repeat split; discriminate.
  - intros i Hi. vm_compute in Hi. lia.
  - exists t. split; [exact Hinit|]. rewrite Hslot. vm_compute. reflexivity.
Defined.

Lemma only_matching_slot_changes_witness :
  exists t,
    __libc_init_vdso_entries elf64 aarch64 sys_clock_gettime sys_gettimeofday
      8 auxv clock_only = Some t
    /\ slot_fn t VDSO_GETTIMEOFDAY = sys_gettimeofday.
Proof.
  destruct (only_matching_slot_changes elf64 aarch64
              sys_clock_gettime sys_gettimeofday
              8 auxv clock_only 3 base (base + 0x300) (base + 0x200)
              VDSO_CLOCK_GETTIME VDSO_GETTIMEOFDAY
              {| name := "__kernel_clock_gettime"; fn := sys_clock_gettime |}
              {| name := "__kernel_gettimeofday"; fn := sys_gettimeofday |})
    as (t & Hinit & _ & Hother).
  - vm_compute. reflexivity.
  - reflexivity.
  - reflexivity.
  - exists 2%nat. split; [vm_compute; lia|]. vm_compute. repeat split; discriminate.
  - intros i Hi Hname. vm_compute in Hi. apply cstring_at_strcmp in Hname.
    destruct i as [|[|[|i]]]; [| | |lia]; vm_compute in Hname; discriminate Hname.
  - exists t. split; [exact Hinit|exact Hother].
Defined.


(** C7 fails as stated: a symbol whose value is the two's complement of the
    load bias leaves a null address in its slot. *)
Lemma wrapping_symbol_gives_null_slot :
  sys_clock_gettime <> 0
  /\ sys_gettimeofday <> 0
  /\ exists t,
       __libc_init_vdso_entries elf64 aarch64 sys_clock_gettime sys_gettimeofday
         8 auxv wrapping_symbol = Some t
       /\ slot_fn t VDSO_CLOCK_GETTIME = 0.
Proof.
  split; [discriminate|]. split; [discriminate|].
  eexists. split; [vm_compute; reflexivity|]. reflexivity.
Qed.

Lemma slots_fallback_or_discovered_witness :
  slot_fn clock_only_table VDSO_CLOCK_GETTIME <> 0.
Proof.
  apply (slots_fallback_or_discovered elf64 aarch64
           sys_clock_gettime sys_gettimeofday 8 auxv clock_only
           clock_only_table VDSO_CLOCK_GETTIME
           {| name := "__kernel_clock_gettime"; fn := sys_clock_gettime |}).
  - vm_compute. reflexivity.
  - reflexivity.
  - discriminate.
  - intros c b st sy i Hd Hi Hname.
    vm_compute in Hd. injection Hd as <- <- <- <-.
    vm_compute in Hi. apply cstring_at_strcmp in Hname.
    destruct i as [|[|[|i]]]; [| | |lia].
    + vm_compute in Hname. discriminate Hname.
    + vm_compute in Hname. discriminate Hname.
    + vm_compute. discriminate.
Defined.

Lemma slot_names_fixed_witness :
  map name (table clock_only_process)
  = [VDSO_CLOCK_GETTIME_SYMBOL aarch64; VDSO_GETTIMEOFDAY_SYMBOL aarch64].
Proof.
  apply (slot_names_fixed elf64 aarch64 sys_clock_gettime sys_gettimeofday
           strerror 8 kind_os clock_only clock_only_process).
  vm_compute. reflexivity.
Defined.

Lemma trampolines_forward_witness :
  clock_gettime toy_world toy_invoke clock_only_process 1 0x7ffe1000 toy_start
  = Some (toy_invoke (base + 0x1000) 1 0x7ffe1000 toy_start)
  /\ gettimeofday toy_world toy_invoke clock_only_process 0x7ffe1000 0 toy_start
     = Some (toy_invoke sys_gettimeofday 0x7ffe1000 0 toy_start).
Proof.
  destruct (trampolines_forward elf64 aarch64 sys_clock_gettime sys_gettimeofday
              strerror toy_world toy_invoke 8 kind_os clock_only clock_only_process)
    as [Hclock Htime].
  - vm_compute. reflexivity.
  - split; [apply Hclock|apply Htime].
Defined.

(** * Further properties of the initializer *)

Lemma for_loop_shift {A : Type} (f : nat -> A -> A) (n : nat) (s : A) :
  for_loop (S n) f s = for_loop n (fun i => f (S i)) (f 0%nat s).
Proof.
  induction n as [|n IH]; [reflexivity|].
  rewrite for_loop_S, IH. reflexivity.
Qed.



Section WalkFacts.

Variable D : ElfDecls.
Variables (m : memory) (vdso_addr : Z).

(** The walk, once it ends at its first null entry [n], has taken the turns
    for the entries before [n] and no other. *)
Lemma tables_of_turns (n : nat) :
  forall (fuel : nat) (d strtab symtab : Z),
    (n < fuel)%nat ->
    (forall i : nat, (i < n)%nat -> read m (dyn_at D d i) (d_tag D) <> DT_NULL D) ->
    read m (dyn_at D d n) (d_tag D) = DT_NULL D ->
    tables_of D fuel m vdso_addr d strtab symtab
    = Some (for_loop n (strtab_turn D m vdso_addr d) strtab,
            for_loop n (symtab_turn D m vdso_addr d) symtab).
Proof.
  induction n as [|n IH]; intros fuel d strtab symtab Hn Hbefore Hnull;
    (destruct fuel as [|fuel]; [lia|]); simpl tables_of.
  - rewrite dyn_at_0 in Hnull. rewrite Hnull, Z.eqb_refl. reflexivity.
  - assert (H0 : read m d (d_tag D) <> DT_NULL D).
    { rewrite <- (dyn_at_0 D m d). apply Hbefore. lia. }
    destruct (Z.eqb_spec (read m d (d_tag D)) (DT_NULL D)) as [|_]; [contradiction|].
    rewrite !for_loop_shift.
    assert (Hs : forall x, for_loop n (fun i => strtab_turn D m vdso_addr d (S i)) x
                           = for_loop n (strtab_turn D m vdso_addr
                                           (wrap64 (d + sizeof_Dyn D))) x).
    { intros x. apply for_loop_ext. intros i y _.
      unfold strtab_turn. rewrite dyn_at_S. reflexivity. }
    assert (Hy : forall x, for_loop n (fun i => symtab_turn D m vdso_addr d (S i)) x
                           = for_loop n (symtab_turn D m vdso_addr
                                           (wrap64 (d + sizeof_Dyn D))) x).
    { intros x. apply for_loop_ext. intros i y _.
      unfold symtab_turn. rewrite dyn_at_S. reflexivity. }
    rewrite Hs, Hy.
    unfold strtab_turn at 2, symtab_turn at 2. rewrite !dyn_at_0.
    rewrite <- dyn_at_S in Hnull.
    assert (Hbefore' : forall i : nat, (i < n)%nat ->
               read m (dyn_at D (wrap64 (d + sizeof_Dyn D)) i) (d_tag D) <> DT_NULL D).
    { intros i Hi. rewrite dyn_at_S. apply Hbefore. lia. }
    destruct (read m d (d_tag D) =? DT_STRTAB D); simpl;
      [|destruct (read m d (d_tag D) =? DT_SYMTAB D)];
      apply IH; (lia || assumption).
Qed.

End WalkFacts.

Section MoreInitFacts.

Variable D : ElfDecls.
Variable target : arch.
Variables (__clock_gettime __gettimeofday : Z).

Local Abbreviation template :=
  (vdso_entries_template target __clock_gettime __gettimeofday).
Local Abbreviation init :=
  (__libc_init_vdso_entries D target __clock_gettime __gettimeofday).

Lemma dynamic_of_last_load (m : memory) (ehdr : Z) (k : nat) :
  PT_LOAD D <> PT_DYNAMIC D ->
  (k < Z.to_nat (read m ehdr (e_phnum D)))%nat ->
  read m (phdr_at D m ehdr k) (p_type D) = PT_LOAD D ->
  (forall i : nat,
      (k < i < Z.to_nat (read m ehdr (e_phnum D)))%nat ->
      read m (phdr_at D m ehdr i) (p_type D) <> PT_LOAD D) ->
  fst (dynamic_of D m ehdr) = bias_of D m ehdr k.
Proof.
  intros Hdistinct Hk Htype Hlater.
  unfold dynamic_of. rewrite fst_phdr_loop. simpl.
  apply (for_loop_last_write (is_load D m ehdr) (bias_of D m ehdr)).
  - exact Hk.
  - unfold is_load. rewrite Htype, Z.eqb_refl.
    destruct (Z.eqb_spec (PT_LOAD D) (PT_DYNAMIC D)); [contradiction|reflexivity].
  - intros i Hi. unfold is_load. apply andb_false_iff. right.
    apply Z.eqb_neq. apply Hlater. exact Hi.
Qed.

Lemma init_without_bias (fuel : nat) (auxv : Z -> Z) (m : memory) :
  fst (dynamic_of D m (auxv (AT_SYSINFO_EHDR D))) = 0 ->
  init fuel auxv m = Some template.
Proof.
  intros H. rewrite init_entries_discovery. unfold discovery.
  destruct (auxv (AT_SYSINFO_EHDR D) =? 0); [reflexivity|].
  destruct (symbol_count_of D m (auxv (AT_SYSINFO_EHDR D)) =? 0); [reflexivity|].
  rewrite H. reflexivity.
Qed.

Lemma init_aborted (fuel : nat) (auxv : Z -> Z) (m : memory) :
  abort_cause D fuel auxv m -> init fuel auxv m = Some template.
Proof.
  intros H. rewrite init_entries_discovery, (abort_cause_discovery D fuel auxv m H).
  reflexivity.
Qed.

End MoreInitFacts.

Section ScanOfTemplate.

Variable D : ElfDecls.
Variable target : arch.
Variables (__clock_gettime __gettimeofday : Z).

(** The scan of the template, slot by slot. *)
Lemma scan_template (m : memory) (c b st sy : Z) :
  scan_symbols D m c b st sy
    (vdso_entries_template target __clock_gettime __gettimeofday)
  = [ resolve_slot D m b st sy (Z.to_nat c)
        {| name := VDSO_CLOCK_GETTIME_SYMBOL target; fn := __clock_gettime |};
      resolve_slot D m b st sy (Z.to_nat c)
        {| name := VDSO_GETTIMEOFDAY_SYMBOL target; fn := __gettimeofday |} ].
Proof.
  pose proof (scan_symbols_length D m b st sy c
                (vdso_entries_template target __clock_gettime __gettimeofday)) as Hlen.
  pose proof (scan_symbols_lookup D m b st sy c 0
                (vdso_entries_template target __clock_gettime __gettimeofday)) as H0.
  pose proof (scan_symbols_lookup D m b st sy c 1
                (vdso_entries_template target __clock_gettime __gettimeofday)) as H1.
  destruct (scan_symbols D m c b st sy _) as [|x [|y [|z t]]]; try discriminate Hlen.
  specialize (H0 ltac:(unfold VDSO_END; lia)).
  specialize (H1 ltac:(unfold VDSO_END; lia)).
  simpl in H0, H1. injection H0 as ->. injection H1 as ->. reflexivity.
Qed.

End ScanOfTemplate.

Section Extras.

Variable D : ElfDecls.
Variable target : arch.
Variables (__clock_gettime __gettimeofday : Z).
Variable strerror : Z -> string.

Local Abbreviation template :=
  (vdso_entries_template target __clock_gettime __gettimeofday).
Local Abbreviation init :=
  (__libc_init_vdso_entries D target __clock_gettime __gettimeofday).
Local Abbreviation run :=
  (__libc_init_vdso D target __clock_gettime __gettimeofday strerror).

(** X1: the dynamic section is taken from the last PT_DYNAMIC program
    header, at the object's base address plus that header's file offset
    (not its virtual address, and without the load bias). *)
Theorem dynamic_section_from_last_descriptor (m : memory) (ehdr : Z) (k : nat) :
  (k < Z.to_nat (read m ehdr (e_phnum D)))%nat ->
  read m (phdr_at D m ehdr k) (p_type D) = PT_DYNAMIC D ->
  (forall i : nat,
      (k < i < Z.to_nat (read m ehdr (e_phnum D)))%nat ->
      read m (phdr_at D m ehdr i) (p_type D) <> PT_DYNAMIC D) ->
  snd (dynamic_of D m ehdr)
  = wrap64 (ehdr + read m (phdr_at D m ehdr k) (p_offset D)).
Proof.
  intros Hk Htype Hlater. unfold dynamic_of. rewrite snd_phdr_loop. simpl.
  apply (for_loop_last_write
           (fun i => read m (phdr_at D m ehdr i) (p_type D) =? PT_DYNAMIC D)
           (fun i => wrap64 (ehdr + read m (phdr_at D m ehdr i) (p_offset D)))).
  - exact Hk.
  - apply Z.eqb_eq. exact Htype.
  - intros i Hi. apply Z.eqb_neq. apply Hlater. exact Hi.
Qed.

(** X2: a load bias of zero counts as "no loadable segment": when the last
    PT_LOAD header gives base + offset - vaddr = 0 modulo 2^64, discovery
    gives up and the table is the template. *)
Theorem zero_load_bias_keeps_fallbacks (fuel : nat) (auxv : Z -> Z)
    (m : memory) (k : nat) :
  PT_LOAD D <> PT_DYNAMIC D ->
  (k < Z.to_nat (read m (auxv (AT_SYSINFO_EHDR D)) (e_phnum D)))%nat ->
  read m (phdr_at D m (auxv (AT_SYSINFO_EHDR D)) k) (p_type D) = PT_LOAD D ->
  (forall i : nat,
      (k < i < Z.to_nat (read m (auxv (AT_SYSINFO_EHDR D)) (e_phnum D)))%nat ->
      read m (phdr_at D m (auxv (AT_SYSINFO_EHDR D)) i) (p_type D) <> PT_LOAD D) ->
  wrap64 (auxv (AT_SYSINFO_EHDR D)
          + read m (phdr_at D m (auxv (AT_SYSINFO_EHDR D)) k) (p_offset D)
          - read m (phdr_at D m (auxv (AT_SYSINFO_EHDR D)) k) (p_vaddr D)) = 0 ->
  init fuel auxv m = Some template.
Proof.
  intros Hdistinct Hk Htype Hlater Hzero.
  apply init_without_bias.
  rewrite (dynamic_of_last_load D m _ k Hdistinct Hk Htype Hlater). exact Hzero.
Qed.

(** X3: the walk over the dynamic section stops at the first DT_NULL entry
    and returns the bias-translated pointers of the last DT_STRTAB and the
    last DT_SYMTAB entry before it; entries behind the null entry are not
    looked at. *)
Theorem tables_from_last_entries (fuel : nat) (m : memory)
    (vdso_addr d strtab symtab : Z) (n ks ky : nat) :
  DT_STRTAB D <> DT_SYMTAB D ->
  (n < fuel)%nat ->
  (forall i : nat, (i < n)%nat -> read m (dyn_at D d i) (d_tag D) <> DT_NULL D) ->
  read m (dyn_at D d n) (d_tag D) = DT_NULL D ->
  (ks < n)%nat ->
  read m (dyn_at D d ks) (d_tag D) = DT_STRTAB D ->
  (forall i : nat, (ks < i < n)%nat -> read m (dyn_at D d i) (d_tag D) <> DT_STRTAB D) ->
  (ky < n)%nat ->
  read m (dyn_at D d ky) (d_tag D) = DT_SYMTAB D ->
  (forall i : nat, (ky < i < n)%nat -> read m (dyn_at D d i) (d_tag D) <> DT_SYMTAB D) ->
  tables_of D fuel m vdso_addr d strtab symtab
  = Some (wrap64 (vdso_addr + read m (dyn_at D d ks) (d_ptr D)),
          wrap64 (vdso_addr + read m (dyn_at D d ky) (d_ptr D))).
Proof.
  intros Hdistinct Hn Hbefore Hnull Hks Hs Hslater Hky Hy Hylater.
  rewrite (tables_of_turns D m vdso_addr n fuel d strtab symtab Hn Hbefore Hnull).
  f_equal. f_equal.
  - apply (for_loop_last_write
             (fun i => read m (dyn_at D d i) (d_tag D) =? DT_STRTAB D)
             (fun i => wrap64 (vdso_addr + read m (dyn_at D d i) (d_ptr D)))).
    + exact Hks.
    + apply Z.eqb_eq. exact Hs.
    + intros i Hi. apply Z.eqb_neq. apply Hslater. exact Hi.
  - apply (for_loop_last_write
             (fun i => negb (read m (dyn_at D d i) (d_tag D) =? DT_STRTAB D)
                       && (read m (dyn_at D d i) (d_tag D) =? DT_SYMTAB D))
             (fun i => wrap64 (vdso_addr + read m (dyn_at D d i) (d_ptr D)))).
    + exact Hky.
    + rewrite Hy, Z.eqb_refl.
      destruct (Z.eqb_spec (DT_SYMTAB D) (DT_STRTAB D)) as [E|_];
        [symmetry in E; contradiction|reflexivity].
    + intros i Hi. apply andb_false_iff. right.
      apply Z.eqb_neq. apply Hylater. exact Hi.
Qed.

(** X4: a string table at address zero counts as "no string table": when
    the last DT_STRTAB entry before the null entry translates to 0 modulo
    2^64, the table is the template. *)
Theorem null_string_table_keeps_fallbacks (fuel : nat) (auxv : Z -> Z)
    (m : memory) (b d : Z) (n ks : nat) :
  dynamic_of D m (auxv (AT_SYSINFO_EHDR D)) = (b, d) ->
  (n < fuel)%nat ->
  (forall i : nat, (i < n)%nat -> read m (dyn_at D d i) (d_tag D) <> DT_NULL D) ->
  read m (dyn_at D d n) (d_tag D) = DT_NULL D ->
  (ks < n)%nat ->
  read m (dyn_at D d ks) (d_tag D) = DT_STRTAB D ->
  (forall i : nat, (ks < i < n)%nat -> read m (dyn_at D d i) (d_tag D) <> DT_STRTAB D) ->
  wrap64 (b + read m (dyn_at D d ks) (d_ptr D)) = 0 ->
  init fuel auxv m = Some template.
Proof.
  intros Hdyn Hn Hbefore Hnull Hks Hs Hslater Hzero.
  rewrite init_entries_discovery. unfold discovery.
  destruct (auxv (AT_SYSINFO_EHDR D) =? 0); [reflexivity|].
  destruct (symbol_count_of D m (auxv (AT_SYSINFO_EHDR D)) =? 0); [reflexivity|].
  rewrite Hdyn. simpl.
  destruct ((b =? 0) || (d =? 0)); [reflexivity|].
  rewrite (tables_of_turns D m b n fuel d 0 0 Hn Hbefore Hnull).
  assert (Hst : for_loop n (strtab_turn D m b d) 0 = 0).
  { rewrite <- Hzero.
    apply (for_loop_last_write
             (fun i => read m (dyn_at D d i) (d_tag D) =? DT_STRTAB D)
             (fun i => wrap64 (b + read m (dyn_at D d i) (d_ptr D)))).
    - exact Hks.
    - apply Z.eqb_eq. exact Hs.
    - intros i Hi. apply Z.eqb_neq. apply Hslater. exact Hi. }
  rewrite Hst. reflexivity.
Qed.

(** X5: the symbol count is the section size divided by the size of a
    symbol, rounded down: when the last SHT_DYNSYM section is shorter than
    one symbol the count is zero and the table is the template. *)
Theorem short_dynsym_keeps_fallbacks (fuel : nat) (auxv : Z -> Z)
    (m : memory) (k : nat) :
  (k < Z.to_nat (read m (auxv (AT_SYSINFO_EHDR D)) (e_shnum D)))%nat ->
  read m (shdr_at D m (auxv (AT_SYSINFO_EHDR D)) k) (sh_type D) = SHT_DYNSYM D ->
  (forall i : nat,
      (k < i < Z.to_nat (read m (auxv (AT_SYSINFO_EHDR D)) (e_shnum D)))%nat ->
      read m (shdr_at D m (auxv (AT_SYSINFO_EHDR D)) i) (sh_type D) <> SHT_DYNSYM D) ->
  read m (shdr_at D m (auxv (AT_SYSINFO_EHDR D)) k) (sh_size D) < sizeof_Sym D ->
  init fuel auxv m = Some template.
Proof.
  intros Hk Htype Hlater Hshort.
  apply init_aborted. apply symbol_count_zero. unfold symbol_count_of.
  rewrite (for_loop_last_write
             (fun i => read m (shdr_at D m (auxv (AT_SYSINFO_EHDR D)) i) (sh_type D)
                       =? SHT_DYNSYM D)
             (fun i => read m (shdr_at D m (auxv (AT_SYSINFO_EHDR D)) i) (sh_size D)
                       / sizeof_Sym D) _ k).
  - apply Z.div_small. split; [apply load_le_nonneg|exact Hshort].
  - exact Hk.
  - apply Z.eqb_eq. exact Htype.
  - intros i Hi. apply Z.eqb_neq. apply Hlater. exact Hi.
Qed.

(** X6: when the scanned symbols include both wanted names, both slots end
    up holding bias-translated symbol values and no fallback is left. *)
Theorem both_symbols_resolved (fuel : nat) (auxv : Z -> Z) (m : memory)
    (c b st sy : Z) :
  discovery D fuel auxv m = Some (Located c b st sy) ->
  (exists i : nat,
      (i < Z.to_nat c)%nat
      /\ cstring_at m (sym_name_ptr D m st sy i) (VDSO_CLOCK_GETTIME_SYMBOL target)) ->
  (exists i : nat,
      (i < Z.to_nat c)%nat
      /\ cstring_at m (sym_name_ptr D m st sy i) (VDSO_GETTIMEOFDAY_SYMBOL target)) ->
  exists k0 k1 : nat,
    (k0 < Z.to_nat c)%nat /\ (k1 < Z.to_nat c)%nat
    /\ cstring_at m (sym_name_ptr D m st sy k0) (VDSO_CLOCK_GETTIME_SYMBOL target)
    /\ cstring_at m (sym_name_ptr D m st sy k1) (VDSO_GETTIMEOFDAY_SYMBOL target)
    /\ init fuel auxv m
       = Some [ {| name := VDSO_CLOCK_GETTIME_SYMBOL target;
                   fn := wrap64 (b + read m (sym_at D sy k0) (st_value D)) |};
                {| name := VDSO_GETTIMEOFDAY_SYMBOL target;
                   fn := wrap64 (b + read m (sym_at D sy k1) (st_value D)) |} ].
Proof.
  intros Hd (i0 & Hi0 & Hn0) (i1 & Hi1 & Hn1).
  destruct (symbol_names_nul_free target) as [Hfree0 Hfree1].
  destruct (resolve_slot_some D m b st sy (Z.to_nat c)
              {| name := VDSO_CLOCK_GETTIME_SYMBOL target; fn := __clock_gettime |})
    as (k0 & Hk0 & Hm0 & Heq0).
  { exists i0. split; [exact Hi0|]. apply cstring_at_strcmp. exact Hn0. }
  destruct (resolve_slot_some D m b st sy (Z.to_nat c)
              {| name := VDSO_GETTIMEOFDAY_SYMBOL target; fn := __gettimeofday |})
    as (k1 & Hk1 & Hm1 & Heq1).
  { exists i1. split; [exact Hi1|]. apply cstring_at_strcmp. exact Hn1. }
  exists k0, k1. split; [exact Hk0|]. split; [exact Hk1|].
  split; [apply strcmp_cstring_at; assumption|].
  split; [apply strcmp_cstring_at; assumption|].
  rewrite init_entries_discovery, Hd, scan_template, Heq0, Heq1. reflexivity.
Qed.

(** X7: only an exact name counts: when no scanned symbol is named exactly
    as one of the two slots, the table after a completed discovery is the
    template, whatever else the symbol table holds. *)
Theorem no_wanted_symbol_keeps_template (fuel : nat) (auxv : Z -> Z)
    (m : memory) (c b st sy : Z) :
  discovery D fuel auxv m = Some (Located c b st sy) ->
  (forall i : nat,
      (i < Z.to_nat c)%nat ->
      ~ cstring_at m (sym_name_ptr D m st sy i) (VDSO_CLOCK_GETTIME_SYMBOL target)
      /\ ~ cstring_at m (sym_name_ptr D m st sy i) (VDSO_GETTIMEOFDAY_SYMBOL target)) ->
  init fuel auxv m = Some template.
Proof.
  intros Hd Hnone.
  destruct (symbol_names_nul_free target) as [Hfree0 Hfree1].
  rewrite init_entries_discovery, Hd, scan_template.
  rewrite !resolve_slot_none; [reflexivity| |].
  - intros i Hi Hm. apply (proj2 (Hnone i Hi)).
    apply strcmp_cstring_at; assumption.
  - intros i Hi Hm. apply (proj1 (Hnone i Hi)).
    apply strcmp_cstring_at; assumption.
Qed.


(** X10: naming the region is advisory: two kernels that differ only in
    what prctl answers give the same fatal message, or the same table
    pointer, table and protection. *)
Theorem prctl_is_advisory (fuel : nat) (k k' : os) (m : memory) :
  getauxval k = getauxval k' ->
  mmap k = mmap k' ->
  mprotect k = mprotect k' ->
  match run fuel k m, run fuel k' m with
  | Some (Returned p), Some (Returned p') =>
      vdso_entries p = vdso_entries p'
      /\ table p = table p'
      /\ protection p = protection p'
  | Some (Fatal msg), Some (Fatal msg') => msg = msg'
  | None, None => True
  | _, _ => False
  end.
Proof.
  intros Haux Hmmap Hprot. unfold __libc_init_vdso.
  rewrite <- Haux, <- Hmmap, <- Hprot.
  destruct (ret (mmap k) =? MAP_FAILED D); [reflexivity|].
  destruct (init fuel (getauxval k) m); [|exact I].
  destruct (ret (mprotect k) =? -1); [reflexivity|].
  simpl. auto.
Qed.

(** X11: an object with an empty section-header table or an empty
    program-header table leaves the table as the template. *)
Theorem empty_header_tables_keep_fallbacks (fuel : nat) (auxv : Z -> Z)
    (m : memory) :
  read m (auxv (AT_SYSINFO_EHDR D)) (e_shnum D) = 0
  \/ read m (auxv (AT_SYSINFO_EHDR D)) (e_phnum D) = 0 ->
  init fuel auxv m = Some template.
Proof.
  intros [H|H]; apply init_aborted.
  - apply dynsym_absent. rewrite H. intros i Hi. simpl in Hi. lia.
  - apply load_absent. rewrite H. intros i Hi. simpl in Hi. lia.
Qed.

Variable world : Type.
Variable invoke : Z -> Z -> Z -> world -> Z * world.

(** X12: when discovery aborts, the two public operations are the two
    system-call wrappers: each trampoline calls its wrapper with the
    caller's arguments. *)
Theorem aborted_discovery_dispatches_to_wrappers (fuel : nat) (k : os)
    (m : memory) (p : process) :
  abort_cause D fuel (getauxval k) m ->
  run fuel k m = Some (Returned p) ->
  (forall (clock_id tp : Z) (w : world),
      clock_gettime world invoke p clock_id tp w
      = Some (invoke __clock_gettime clock_id tp w))
  /\ (forall (tv tz : Z) (w : world),
         gettimeofday world invoke p tv tz w
         = Some (invoke __gettimeofday tv tz w)).
Proof.
  intros Habort Hrun.
  apply (run_returned D target __clock_gettime __gettimeofday strerror) in Hrun
    as (Hinit & _).
  rewrite (init_aborted D target __clock_gettime __gettimeofday fuel _ m Habort)
    in Hinit.
  injection Hinit as Ht.
  unfold clock_gettime, gettimeofday. rewrite <- Ht. split; intros; reflexivity.
Qed.

(** X13: when discovery finds the clock symbol, the public clock operation
    calls the bias-translated value of the last scanned entry of that name,
    with the caller's arguments. *)
Theorem discovered_clock_is_dispatched (fuel : nat) (k : os) (m : memory)
    (p : process) (c b st sy : Z) (k0 : nat) :
  discovery D fuel (getauxval k) m = Some (Located c b st sy) ->
  run fuel k m = Some (Returned p) ->
  (k0 < Z.to_nat c)%nat ->
  cstring_at m (sym_name_ptr D m st sy k0) (VDSO_CLOCK_GETTIME_SYMBOL target) ->
  (forall i : nat,
      (k0 < i < Z.to_nat c)%nat ->
      ~ cstring_at m (sym_name_ptr D m st sy i) (VDSO_CLOCK_GETTIME_SYMBOL target)) ->
  forall (clock_id tp : Z) (w : world),
    clock_gettime world invoke p clock_id tp w
    = Some (invoke (wrap64 (b + read m (sym_at D sy k0) (st_value D))) clock_id tp w).
Proof.
  intros Hd Hrun Hk0 Hname Hlater clock_id tp w.
  apply (run_returned D target __clock_gettime __gettimeofday strerror) in Hrun
    as (Hinit & _).
  rewrite init_entries_discovery, Hd, scan_template in Hinit.
  injection Hinit as Ht.
  unfold clock_gettime. rewrite <- Ht. simpl.
  rewrite (resolve_slot_last D m b st sy (Z.to_nat c) k0).
  - reflexivity.
  - exact Hk0.
  - apply cstring_at_strcmp. exact Hname.
  - intros i Hi Hm. apply (Hlater i Hi).
    apply strcmp_cstring_at; [apply (symbol_names_nul_free target)|exact Hm].
Qed.

End Extras.

(** * Further runs on the synthetic objects *)

Lemma dynamic_section_from_last_descriptor_witness :
  snd (dynamic_of elf64 two_dynamics base) = base + 0x100.
Proof.
  rewrite (dynamic_section_from_last_descriptor elf64 two_dynamics base 2).
  - vm_compute. reflexivity.
  - vm_compute. lia.
  - vm_compute. reflexivity.
  - intros i Hi. vm_compute in Hi. lia.
Defined.

Lemma zero_load_bias_keeps_fallbacks_witness :
  __libc_init_vdso_entries elf64 aarch64 sys_clock_gettime sys_gettimeofday
    8 auxv zero_bias
  = Some (vdso_entries_template aarch64 sys_clock_gettime sys_gettimeofday).
Proof.
  apply (zero_load_bias_keeps_fallbacks elf64 aarch64
           sys_clock_gettime sys_gettimeofday 8 auxv zero_bias 0).
  - vm_compute. intros E. discriminate E.
  - vm_compute. lia.
  - vm_compute. reflexivity.
  - intros i Hi. vm_compute in Hi.
    destruct i as [|[|i]]; [lia| |lia]. vm_compute. intros E. discriminate E.
  - vm_compute. reflexivity.
Defined.

Lemma tables_from_last_entries_witness :
  tables_of elf64 8 two_strtabs base (base + 0x100) 0 0
  = Some (base + 0x300, base + 0x200).
Proof.
  rewrite (tables_from_last_entries elf64 8 two_strtabs base (base + 0x100) 0 0 3 2 1).
  - vm_compute. reflexivity.
  - vm_compute. intros E. discriminate E.
  - lia.
  - intros i Hi. destruct i as [|[|[|i]]]; [| | |lia];
      vm_compute; intros E; discriminate E.
  - vm_compute. reflexivity.
  - lia.
  - vm_compute. reflexivity.
  - intros i Hi. lia.
  - lia.
  - vm_compute. reflexivity.
  - intros i Hi. destruct i as [|[|[|i]]]; [lia|lia| |lia].
    vm_compute. intros E. discriminate E.
Defined.

Lemma null_string_table_keeps_fallbacks_witness :
  __libc_init_vdso_entries elf64 aarch64 sys_clock_gettime sys_gettimeofday
    8 auxv null_strtab
  = Some (vdso_entries_template aarch64 sys_clock_gettime sys_gettimeofday).
Proof.
  apply (null_string_table_keeps_fallbacks elf64 aarch64
           sys_clock_gettime sys_gettimeofday 8 auxv null_strtab
           base (base + 0x100) 2 0).
  - vm_compute. reflexivity.
  - lia.
  - intros i Hi. destruct i as [|[|i]]; [| |lia];
      vm_compute; intros E; discriminate E.
  - vm_compute. reflexivity.
  - lia.
  - vm_compute. reflexivity.
  - intros i Hi. destruct i as [|[|i]]; [lia| |lia].
    vm_compute. intros E. discriminate E.
  - vm_compute. reflexivity.
Defined.

Lemma short_dynsym_keeps_fallbacks_witness :
  __libc_init_vdso_entries elf64 aarch64 sys_clock_gettime sys_gettimeofday
    8 auxv short_dynsym
  = Some (vdso_entries_template aarch64 sys_clock_gettime sys_gettimeofday).
Proof.
  apply (short_dynsym_keeps_fallbacks elf64 aarch64
           sys_clock_gettime sys_gettimeofday 8 auxv short_dynsym 0).
  - vm_compute. lia.
  - vm_compute. reflexivity.
  - intros i Hi. vm_compute in Hi. lia.
  - vm_compute. reflexivity.
Defined.

Lemma both_symbols_resolved_witness :
  exists k0 k1 : nat,
    (k0 < 3)%nat /\ (k1 < 3)%nat
    /\ cstring_at both_symbols
         (sym_name_ptr elf64 both_symbols (base + 0x300) (base + 0x200) k0)
         "__kernel_clock_gettime"
    /\ cstring_at both_symbols
         (sym_name_ptr elf64 both_symbols (base + 0x300) (base + 0x200) k1)
         "__kernel_gettimeofday"
    /\ __libc_init_vdso_entries elf64 aarch64 sys_clock_gettime sys_gettimeofday
         8 auxv both_symbols
       = Some [ {| name := "__kernel_clock_gettime";
                   fn := wrap64 (base + read both_symbols
                                          (sym_at elf64 (base + 0x200) k0)
                                          (st_value elf64)) |};
                {| name := "__kernel_gettimeofday";
                   fn := wrap64 (base + read both_symbols
                                          (sym_at elf64 (base + 0x200) k1)
                                          (st_value elf64)) |} ].
Proof.
  apply (both_symbols_resolved elf64 aarch64 sys_clock_gettime sys_gettimeofday
           8 auxv both_symbols 3 base (base + 0x300) (base + 0x200)).
  - vm_compute. reflexivity.
  - exists 1%nat. split; [vm_compute; lia|]. vm_compute.
    repeat split; intros E; discriminate E.
  - exists 2%nat. split; [vm_compute; lia|]. vm_compute.
    repeat split; intros E; discriminate E.
Defined.

Lemma no_wanted_symbol_keeps_template_witness :
  __libc_init_vdso_entries elf64 aarch64 sys_clock_gettime sys_gettimeofday
    8 auxv near_misses
  = Some (vdso_entries_template aarch64 sys_clock_gettime sys_gettimeofday).
Proof.
  apply (no_wanted_symbol_keeps_template elf64 aarch64
           sys_clock_gettime sys_gettimeofday 8 auxv near_misses
           4 base (base + 0x300) (base + 0x200)).
  - vm_compute. reflexivity.
  - intros i Hi. vm_compute in Hi.
    split; intros Hname; apply cstring_at_strcmp in Hname;
      (destruct i as [|[|[|[|i]]]]; [| | | |lia]);
      vm_compute in Hname; discriminate Hname.
Defined.

Lemma prctl_is_advisory_witness :
  match __libc_init_vdso elf64 aarch64 sys_clock_gettime sys_gettimeofday strerror
          8 kind_os clock_only,
        __libc_init_vdso elf64 aarch64 sys_clock_gettime sys_gettimeofday strerror
          8 no_prctl_os clock_only
  with
  | Some (Returned p), Some (Returned p') =>
      vdso_entries p = vdso_entries p'
      /\ table p = table p'
      /\ protection p = protection p'
  | Some (Fatal msg), Some (Fatal msg') => msg = msg'
  | None, None => True
  | _, _ => False
  end.
Proof.
  apply (prctl_is_advisory elf64 aarch64 sys_clock_gettime sys_gettimeofday
           strerror 8 kind_os no_prctl_os clock_only); reflexivity.
Defined.

Lemma empty_header_tables_keep_fallbacks_witness :
  __libc_init_vdso_entries elf64 aarch64 sys_clock_gettime sys_gettimeofday
    8 auxv no_sections
  = Some (vdso_entries_template aarch64 sys_clock_gettime sys_gettimeofday).
Proof.
  apply (empty_header_tables_keep_fallbacks elf64 aarch64
           sys_clock_gettime sys_gettimeofday 8 auxv no_sections).
  left. vm_compute. reflexivity.
Defined.

Lemma aborted_discovery_dispatches_to_wrappers_witness :
  clock_gettime toy_world toy_invoke fallback_process 1 0x7ffe1000 toy_start
  = Some (toy_invoke sys_clock_gettime 1 0x7ffe1000 toy_start)
  /\ gettimeofday toy_world toy_invoke fallback_process 0x7ffe1000 0 toy_start
     = Some (toy_invoke sys_gettimeofday 0x7ffe1000 0 toy_start).
Proof.
  destruct (aborted_discovery_dispatches_to_wrappers elf64 aarch64
              sys_clock_gettime sys_gettimeofday strerror toy_world toy_invoke
              8 absent_os clock_only fallback_process) as [Hclock Htime].
  - apply vdso_absent. reflexivity.
  - vm_compute. reflexivity.
  - split; [apply Hclock|apply Htime].
Defined.

Lemma discovered_clock_is_dispatched_witness :
  clock_gettime toy_world toy_invoke clock_only_process 1 0x7ffe1000 toy_start
  = Some (toy_invoke (base + 0x1000) 1 0x7ffe1000 toy_start).
Proof.
  rewrite (discovered_clock_is_dispatched elf64 aarch64
             sys_clock_gettime sys_gettimeofday strerror toy_world toy_invoke
             8 kind_os clock_only clock_only_process
             3 base (base + 0x300) (base + 0x200) 2).
  - vm_compute. reflexivity.
  - vm_compute. reflexivity.
  - vm_compute. reflexivity.
  - vm_compute. lia.
  - vm_compute. repeat split; intros E; discriminate E.
  - intros i Hi. vm_compute in Hi. lia.
Defined.
